(** * zproxy: a virtual-host HTTP router

    A shallow embedding of [zproxy.go] and the properties of its routing
    core: the four per-variant host maps, the factory functions that fill
    them while the process starts, and [Handler], which dispatches every
    request on its [Host].

    Go strings are byte sequences and are modelled by [string] (a sequence
    of 8-bit [ascii]).  Go maps from host names are [gmap string _].  The
    process runs in a small monad [M] that threads the process-wide state
    (standard error and the global variables) and can stop by [os.Exit]
    or by a run-time panic. *)

From Stdlib Require Import String Ascii ZArith List Permutation.
From stdpp Require Import base option list gmap strings.

Set Default Proof Using "Type".

(** ** The environment

    What the program takes from outside its own source: URL parsing, the
    directory listing and the goconfig reader.  A Go [error] is modelled
    by its message. *)

Definition error := string.

Class Platform := {
  (** [net/url.URL] *)
  URL : Type;
  (** [url.Parse(rawurl)]: the parsed URL, or the error *)
  url_Parse : string → URL + error;
  (** [goconfig.ConfigFile] *)
  ConfigFile : Type;
  (** [ioutil.ReadDir(dirname)]: the names of the entries.  [main] drops
      the error, and the listing is then empty. *)
  ioutil_ReadDir : string → list string;
  (** [goconfig.LoadConfigFile(fileName)]: the file, or the error *)
  goconfig_LoadConfigFile : string → ConfigFile + error;
  (** [cfg.GetValue(section, key)]: the value, or the error *)
  ConfigFile_GetValue : ConfigFile → string → string → string + error;
}.

(** ** The process monad *)

Inductive Result (W A : Type) : Type :=
| Ok (a : A) (w : W)            (* normal return *)
| Exit (code : Z) (w : W)       (* os.Exit(code): the process is gone *)
| Panic (msg : string) (w : W). (* a run-time panic unwinding the caller *)

Arguments Ok {W A} a w.
Arguments Exit {W A} code w.
Arguments Panic {W A} msg w.

(** The process-wide state: what was written to standard error by the
    [log] package, and the package-level variables [G]. *)
Record World (G : Type) : Type := mkWorld {
  stderr : list string;
  globals : G;
}.

Arguments mkWorld {G} stderr globals.
Arguments stderr {G} w.
Arguments globals {G} w.

Definition M (G A : Type) : Type := World G → Result (World G) A.

Definition ret {G A} (a : A) : M G A := fun w => Ok a w.

Definition bind {G A B} (m : M G A) (k : A → M G B) : M G B :=
  fun w =>
    match m w with
    | Ok a w' => k a w'
    | Exit code w' => Exit code w'
    | Panic msg w' => Panic msg w'
    end.

Declare Scope go_scope.
Delimit Scope go_scope with go.
Notation "x <- m ;; k" := (bind m (fun x => k))
  (at level 100, m at next level, right associativity) : go_scope.
Notation "m ;; k" := (bind m (fun _ => k))
  (at level 100, right associativity) : go_scope.
Local Open Scope go_scope.

Definition panic {G A} (msg : string) : M G A := fun w => Panic msg w.

Definition os_Exit {G A} (code : Z) : M G A := fun w => Exit code w.

Definition getGlobals {G} : M G G := fun w => Ok (globals w) w.

Definition modifyGlobals {G} (f : G → G) : M G unit :=
  fun w => Ok tt (mkWorld (stderr w) (f (globals w))).

(** The world a computation leaves behind, however it ended. *)
Definition world_of {W A} (r : Result W A) : W :=
  match r with Ok _ w | Exit _ w | Panic _ w => w end.

Definition is_Ok {W A} (r : Result W A) : bool :=
  match r with Ok _ _ => true | _ => false end.

(** [for _, x := range l { body x }] *)
Fixpoint forEach {G A} (l : list A) (body : A → M G unit) : M G unit :=
  match l with
  | [] => ret tt
  | x :: l' => body x ;; forEach l' body
  end.

(** ** Strings *)

(** The line feed, Go's ["\n"]. *)
Definition LF : string := String (ascii_of_nat 10) EmptyString.

(** [s[lo:]] on a Go string: a run-time panic unless [lo <= len(s)]. *)
Definition slice_from (s : string) (lo : nat) : option string :=
  if decide (lo ≤ String.length s)
  then Some (substring lo (String.length s - lo) s)
  else None.

(** [fmt.Sprintf] for formats whose only verb is [%v], on string
    operands; a verb without operand prints [%!v(MISSING)]. *)
Fixpoint fmt_Sprintf (format : string) (args : list string) : string :=
  match format with
  | String "%" (String "v" rest) =>
      match args with
      | a :: args' => a +:+ fmt_Sprintf rest args'
      | [] => "%!v(MISSING)" +:+ fmt_Sprintf rest []
      end
  | String c rest => String c (fmt_Sprintf rest args)
  | EmptyString => EmptyString
  end.

(** [fmt.Sprintln]: the operands separated by spaces, then a line feed. *)
Fixpoint fmt_Sprintln (args : list string) : string :=
  match args with
  | [] => LF
  | [a] => a +:+ LF
  | a :: args' => a +:+ " " +:+ fmt_Sprintln args'
  end.

Fixpoint ends_with_LF (s : string) : bool :=
  match s with
  | EmptyString => false
  | String c EmptyString => Ascii.eqb c (ascii_of_nat 10)
  | String _ rest => ends_with_LF rest
  end.

(** ** Package [log] (the standard logger, without its time stamp) *)

Module log.
(** [Output]: one line on standard error, ended by a line feed. *)
Definition Output {G} (s : string) : M G unit :=
  fun w =>
    let line := if ends_with_LF s then s else s +:+ LF in
    Ok tt (mkWorld (stderr w ++ [line]) (globals w)).

Definition Printf {G} (format : string) (args : list string) : M G unit :=
  Output (fmt_Sprintf format args).

Definition Println {G} (args : list string) : M G unit :=
  Output (fmt_Sprintln args).

(** [log.Fatal(err)]: print, then [os.Exit(1)]. *)
Definition Fatal {G A} (err : error) : M G A :=
  Output err ;; os_Exit 1.
End log.

(** ** Packages [net/http/httputil] and [net/http]

    The program hands every response to a primitive of the standard
    library.  What a handler does to its [http.ResponseWriter] is
    therefore recorded as the sequence of primitive calls made on it,
    with their operands; the primitives themselves are not interpreted. *)

Module httputil.
Section httputil.
Context `{Platform}.

(** A [*httputil.ReverseProxy] as [NewSingleHostReverseProxy(target)]
    builds it: the forwarding client bound to [target]. *)
Inductive ReverseProxy : Type :=
| NewSingleHostReverseProxy (target : URL).

End httputil.
End httputil.

Module http.

(** The fields of [*http.Request] the program reads; [URL_Path] is
    [request.URL.Path]. *)
Record Request : Type := mkRequest {
  Host : string;
  RequestURI : string;
  URL_Path : string;
}.

(** The values of interface type [http.Handler] the program builds. *)
Inductive Handler : Type :=
| NotFoundHandler
| FileServer (root : string).

Section http.
Context `{Platform}.

Inductive Call : Type :=
| call_Redirect (r : Request) (url : string) (code : Z)
| call_ServeFile (r : Request) (name : string)
| call_Handler (h : Handler) (r : Request)
| call_ReverseProxy (p : httputil.ReverseProxy) (r : Request).

Definition ResponseWriter : Type := list Call.

(** [http.Redirect(w, r, url, code)] *)
Definition Redirect {G} (w : ResponseWriter) (r : Request) (url : string)
    (code : Z) : M G ResponseWriter :=
  ret (w ++ [call_Redirect r url code]).

(** [http.ServeFile(w, r, name)] *)
Definition ServeFile {G} (w : ResponseWriter) (r : Request) (name : string)
    : M G ResponseWriter :=
  ret (w ++ [call_ServeFile r name]).

(** [h.ServeHTTP(w, r)] on an interface value; on the nil interface it
    is a nil dereference. *)
Definition Handler_ServeHTTP {G} (h : option Handler) (w : ResponseWriter)
    (r : Request) : M G ResponseWriter :=
  match h with
  | Some h => ret (w ++ [call_Handler h r])
  | None => panic "runtime error: invalid memory address or nil pointer dereference"
  end.

(** [p.ServeHTTP(w, r)] on a [*httputil.ReverseProxy] *)
Definition ReverseProxy_ServeHTTP {G} (p : httputil.ReverseProxy)
    (w : ResponseWriter) (r : Request) : M G ResponseWriter :=
  ret (w ++ [call_ReverseProxy p r]).

End http.
End http.

(** ** The four handler variants *)

Module Redirect.
Section Redirect.
Context `{Platform}.

Record t : Type := mk {
  To : string;
  Handler : option http.Handler;   (* embedded [http.Handler] *)
}.

Definition ServeHTTP {G} (redirect : t) (writer : http.ResponseWriter)
    (request : http.Request) : M G http.ResponseWriter :=
  log.Printf ("Redirecting(%v) %v" +:+ LF) [http.Host request; To redirect] ;;
  http.Redirect writer request (To redirect +:+ http.RequestURI request) 301.

End Redirect.
End Redirect.

Module Static.
Section Static.
Context `{Platform}.

Record t : Type := mk {
  Dir : string;
  Handler : option http.Handler;   (* embedded [http.Handler] *)
}.

Definition ServeHTTP {G} (static : t) (writer : http.ResponseWriter)
    (request : http.Request) : M G http.ResponseWriter :=
  match slice_from (http.URL_Path request) 1 with
  | None => panic "runtime error: slice bounds out of range [1:0]"
  | Some path =>
      log.Printf ("Serving(%v) %v%v" +:+ LF) [http.Host request; Dir static; path] ;;
      http.ServeFile writer request (Dir static +:+ path)
  end.

End Static.
End Static.

Module Proxy.
Section Proxy.
Context `{Platform}.

Record t : Type := mk {
  To : string;
  ReverseProxy : httputil.ReverseProxy;
}.

Definition ServeHTTP {G} (proxy : t) (writer : http.ResponseWriter)
    (request : http.Request) : M G http.ResponseWriter :=
  log.Printf ("Proxying(%v) %v%v" +:+ LF)
    [http.Host request; To proxy; http.RequestURI request] ;;
  http.ReverseProxy_ServeHTTP (ReverseProxy proxy) writer request.

End Proxy.
End Proxy.

Module NotFound.
Section NotFound.
Context `{Platform}.

Record t : Type := mk {
  Handler : option http.Handler;   (* embedded [http.Handler] *)
}.

Definition ServeHTTP {G} (notFound : t) (writer : http.ResponseWriter)
    (request : http.Request) : M G http.ResponseWriter :=
  log.Printf ("Not Found(%v) %v" +:+ LF)
    [http.Host request; http.RequestURI request] ;;
  http.Handler_ServeHTTP (Handler notFound) writer request.

End NotFound.
End NotFound.

(** ** The program *)

Section zproxy.
Context `{Platform}.

(** [configDir] is a directory to load all the config files from. *)
Definition configDir : string := "/etc/zproxy.d".

(** The package-level maps, one per variant. *)
Record Globals : Type := mkGlobals {
  redirect : gmap string Redirect.t;
  proxy : gmap string Proxy.t;
  notFound : gmap string NotFound.t;
  static : gmap string Static.t;
}.

(** [var genericNotFound = http.NotFoundHandler()]; never assigned again. *)
Definition genericNotFound : option http.Handler := Some http.NotFoundHandler.

Abbreviation Proc := (M Globals).

(** [notFound[host] = v], and its three siblings. *)
Definition set_notFound (host : string) (v : NotFound.t) : Proc unit :=
  modifyGlobals (fun g =>
    mkGlobals (redirect g) (proxy g) (<[host := v]> (notFound g)) (static g)).

Definition set_redirect (host : string) (v : Redirect.t) : Proc unit :=
  modifyGlobals (fun g =>
    mkGlobals (<[host := v]> (redirect g)) (proxy g) (notFound g) (static g)).

Definition set_proxy (host : string) (v : Proxy.t) : Proc unit :=
  modifyGlobals (fun g =>
    mkGlobals (redirect g) (<[host := v]> (proxy g)) (notFound g) (static g)).

Definition set_static (host : string) (v : Static.t) : Proc unit :=
  modifyGlobals (fun g =>
    mkGlobals (redirect g) (proxy g) (notFound g) (<[host := v]> (static g))).

(** factory to create and add a notFound handler *)
Definition addNotFound (host : string) : Proc unit :=
  log.Println ["Adding host to notFound:"; host] ;;
  set_notFound host (NotFound.mk (Some http.NotFoundHandler)).

(** factory to create and add a redirect handler *)
Definition addRedirect (from to : string) : Proc unit :=
  log.Println ["Adding from/to:"; from; to] ;;
  set_redirect from (Redirect.mk to None).

(** factory to create a reverse proxy and add to the proxy struct *)
Definition addProxy (host to : string) : Proc unit :=
  match url_Parse to with
  | inr err => log.Fatal err
  | inl u =>
      let myProxy := httputil.NewSingleHostReverseProxy u in
      set_proxy host (Proxy.mk to myProxy)
  end.

(** factory to create static site *)
Definition addStatic (host dir : string) : Proc unit :=
  set_static host (Static.mk dir (Some (http.FileServer dir))).

Definition Handler (writer : http.ResponseWriter) (request : http.Request)
    : Proc http.ResponseWriter :=
  g <- getGlobals ;;
  match redirect g !! http.Host request with
  | Some thisRedirect => Redirect.ServeHTTP thisRedirect writer request
  | None =>
  match proxy g !! http.Host request with
  | Some thisProxy => Proxy.ServeHTTP thisProxy writer request
  | None =>
  match notFound g !! http.Host request with
  | Some thisNotFound => NotFound.ServeHTTP thisNotFound writer request
  | None =>
  match static g !! http.Host request with
  | Some thisStatic => Static.ServeHTTP thisStatic writer request
  | None =>
      (* since we haven't found a host in any of our data, just serve a
         NotFound *)
      log.Printf ("Host Not Found(%v)" +:+ LF) [http.Host request] ;;
      http.Handler_ServeHTTP genericNotFound writer request
  end end end end.

(** [v, err := ...; if err != nil { log.Fatal(err) }] *)
Definition checkErr {A} (r : A + error) : Proc A :=
  match r with
  | inl v => ret v
  | inr err => log.Fatal err
  end.

(** [if cond { body }] *)
Definition when (cond : bool) (body : Proc unit) : Proc unit :=
  if cond then body else ret tt.

(** The body of the loop of [main] over the entries of [configDir]. *)
Definition loadFile (name : string) : Proc unit :=
  log.Println ["Loading"; name] ;;
  cfg <- checkErr (goconfig_LoadConfigFile (configDir +:+ "/" +:+ name)) ;;
  host <- checkErr (ConfigFile_GetValue cfg "DEFAULT" "host") ;;
  log.Println ["host="; host] ;;
  typ <- checkErr (ConfigFile_GetValue cfg "DEFAULT" "type") ;;
  log.Println ["type="; typ] ;;
  (* depending on the type add it to the right map *)
  when (String.eqb typ "NotFound") (addNotFound host) ;;
  when (String.eqb typ "Proxy")
    (to <- checkErr (ConfigFile_GetValue cfg "DEFAULT" "to") ;;
     log.Println ["to="; to] ;;
     addProxy host to) ;;
  when (String.eqb typ "Static")
    (dir <- checkErr (ConfigFile_GetValue cfg "DEFAULT" "dir") ;;
     log.Println ["dir="; dir] ;;
     addStatic host dir) ;;
  when (String.eqb typ "Redirect")
    (to <- checkErr (ConfigFile_GetValue cfg "DEFAULT" "to") ;;
     log.Println ["to="; to] ;;
     addRedirect host to).

(** [main] up to the start of the server: make the maps, load every
    file of [configDir]. *)
Definition setup : Proc unit :=
  (* make the various backend maps *)
  modifyGlobals (fun _ => mkGlobals ∅ ∅ ∅ ∅) ;;
  (* read all files in the config directory *)
  forEach (ioutil_ReadDir configDir) loadFile ;;
  (* all setting up of sites done, let's start the server *)
  log.Println ["Starting Server"].

(** The server of [http.ListenAndServe("localhost:80", mux)], where the
    mux has the single pattern ["/"], bound to [Handler].  The server is
    net/http's, not the program's: it answers some requests itself (the
    mux redirects a path that is not clean and refuses the target [*]),
    and hands the others to [Handler], each with a writer of its own.
    [accepted] lists the requests it hands to [Handler], in the order in
    which the handler is entered, each with the report the server logs
    should the handler panic: the server recovers the panic, logs, and
    drops the connection without a response.  The result lists what each
    writer received. *)
Fixpoint serve (accepted : list (http.Request * string))
    : Proc (list (option http.ResponseWriter)) :=
  match accepted with
  | [] => ret []
  | (request, report) :: rest =>
      fun w =>
        match Handler [] request w with
        | Ok writer w' => (rs <- serve rest ;; ret (Some writer :: rs)) w'
        | Panic msg w' =>
            (log.Output report ;;
             rs <- serve rest ;; ret (None :: rs)) w'
        | Exit code w' => Exit code w'
        end
  end.

(** [main].  [accepted] is what the server hands to [Handler] until
    [http.ListenAndServe] returns, and [err] the error it returns then
    ([None] for Go's [nil], which net/http never returns here). *)
Definition main (accepted : list (http.Request * string))
    (err : option error) : Proc unit :=
  setup ;;
  serve accepted ;;
  match err with
  | Some err => log.Fatal err
  | None => ret tt
  end.

End zproxy.

(** ** A concrete environment, for the examples

    Four configuration files, one per variant, and a URL parser that
    refuses control characters. *)

Definition has_ctl (s : string) : bool :=
  existsb (fun c => (nat_of_ascii c <? 32) || (nat_of_ascii c =? 127))
          (list_ascii_of_string s).

Definition example_Parse (rawurl : string) : string + error :=
  if has_ctl rawurl
  then inr "parse: net/url: invalid control character in URL"
  else inl rawurl.

Definition example_dir : list (string * list (string * string)) :=
  [ ("api.conf",  [("host", "api.example.com");  ("type", "Proxy");
                   ("to", "http://127.0.0.1:9000")]);
    ("gone.conf", [("host", "gone.example.com"); ("type", "NotFound")]);
    ("old.conf",  [("host", "old.example.com");  ("type", "Redirect");
                   ("to", "https://example.com")]);
    ("www.conf",  [("host", "www.example.com");  ("type", "Static");
                   ("dir", "/srv/www/")]) ].

Fixpoint assoc {A} (k : string) (l : list (string * A)) : option A :=
  match l with
  | [] => None
  | (k', v) :: l' => if String.eqb k k' then Some v else assoc k l'
  end.

Definition example_Load (fileName : string)
    : list (string * string) + error :=
  match assoc fileName
          (map (fun f => ("/etc/zproxy.d/" +:+ fst f, snd f)) example_dir) with
  | Some cfg => inl cfg
  | None => inr "open: no such file or directory"
  end.

Definition example_GetValue (cfg : list (string * string))
    (section key : string) : string + error :=
  match (if String.eqb section "DEFAULT" then assoc key cfg else None) with
  | Some v => inl v
  | None => inr "error: key not found"
  end.

Definition example_platform : Platform := {|
  URL := string;
  url_Parse := example_Parse;
  ConfigFile := list (string * string);
  ioutil_ReadDir := fun dirname =>
    if String.eqb dirname "/etc/zproxy.d" then map fst example_dir else [];
  goconfig_LoadConfigFile := example_Load;
  ConfigFile_GetValue := example_GetValue;
|}.

(** The process before [main] runs: nothing logged, no host in any map. *)
Definition start `{Platform} : World Globals :=
  mkWorld [] (mkGlobals ∅ ∅ ∅ ∅).

(** How a computation ended, apart from the world it left. *)
Definition outcome {W A} (r : Result W A) : A + (Z + string) :=
  match r with
  | Ok a _ => inl a
  | Exit code _ => inr (inl code)
  | Panic msg _ => inr (inr msg)
  end.

(** A second environment, whose directory holds a proxy route with a
    control character (DEL) in its upstream URL, between two good
    routes. *)
Definition broken_upstream : string :=
  "http://127.0.0.1:9000/" +:+ String (ascii_of_nat 127) EmptyString.

Definition broken_dir : list (string * list (string * string)) :=
  [ ("a.conf", [("host", "www.example.com"); ("type", "Static");
                ("dir", "/srv/www/")]);
    ("b.conf", [("host", "api.example.com"); ("type", "Proxy");
                ("to", broken_upstream)]);
    ("c.conf", [("host", "gone.example.com"); ("type", "NotFound")]) ].

Definition broken_platform : Platform := {|
  URL := string;
  url_Parse := example_Parse;
  ConfigFile := list (string * string);
  ioutil_ReadDir := fun dirname =>
    if String.eqb dirname "/etc/zproxy.d" then map fst broken_dir else [];
  goconfig_LoadConfigFile := fun fileName =>
    match assoc fileName
            (map (fun f => ("/etc/zproxy.d/" +:+ fst f, snd f)) broken_dir) with
    | Some cfg => inl cfg
    | None => inr "open: no such file or directory"
    end;
  ConfigFile_GetValue := example_GetValue;
|}.

(** A misconfigured build phase: one host registered under all four
    variants, in the reverse of the dispatcher's order. *)
Definition overlap_host : string := "shop.example.com".

(** The requests used in the examples. *)
Definition overlap_request : http.Request :=
  http.mkRequest overlap_host "/cart?item=7" "/cart".

Definition redirect_request : http.Request :=
  http.mkRequest "old.example.com" "/a/b?x=1" "/a/b".

Definition static_request : http.Request :=
  http.mkRequest "www.example.com" "/index.html" "/index.html".

Definition stray_request : http.Request :=
  http.mkRequest "nobody.example.com" "/" "/".

(** A computation that returned, or ended the process by [log.Fatal]. *)
Definition ok_or_fatal {W A} (r : Result W A) : Prop :=
  match r with
  | Ok _ _ => True
  | Exit code _ => code = 1%Z
  | Panic _ _ => False
  end.

(** ** The dispatcher as the specification words it

    The specification names four variants, checks them in a fixed
    precedence, and falls back to a generic not-found response.  These
    definitions follow its words; [Handler] above follows the code. *)

Section specification.
Context `{Platform}.

Inductive Variant : Type :=
| VRedirect
| VReverseProxy
| VNotFound
| VStaticSite.

(** "Redirect entries are checked first.  ReverseProxy entries next.
    Explicit NotFound entries next.  StaticSite entries next." *)
Definition precedence : list Variant :=
  [VRedirect; VReverseProxy; VNotFound; VStaticSite].

(** The handler registered for [host] under variant [v], if any. *)
Definition handlerOf (g : Globals) (host : string) (v : Variant)
    : option (http.ResponseWriter → http.Request → M Globals http.ResponseWriter) :=
  match v with
  | VRedirect => Redirect.ServeHTTP <$> redirect g !! host
  | VReverseProxy => Proxy.ServeHTTP <$> proxy g !! host
  | VNotFound => NotFound.ServeHTTP <$> notFound g !! host
  | VStaticSite => Static.ServeHTTP <$> static g !! host
  end.

Definition registered (g : Globals) (host : string) (v : Variant) : bool :=
  match handlerOf g host v with Some _ => true | None => false end.

(** The first variant, in precedence order, that has [host]. *)
Definition chosen (g : Globals) (host : string) : option Variant :=
  List.find (registered g host) precedence.

(** "If no entry matches in any of the four maps, produce a generic
    not-found response." *)
Definition serveGeneric (writer : http.ResponseWriter)
    (request : http.Request) : M Globals http.ResponseWriter :=
  log.Printf ("Host Not Found(%v)" +:+ LF) [http.Host request] ;;
  http.Handler_ServeHTTP (Some http.NotFoundHandler) writer request.

(** One lookup, then one dispatch. *)
Definition dispatch (writer : http.ResponseWriter) (request : http.Request)
    : M Globals http.ResponseWriter :=
  fun w =>
    match chosen (globals w) (http.Host request)
          ≫= handlerOf (globals w) (http.Host request) with
    | Some serveHTTP => serveHTTP writer request w
    | None => serveGeneric writer request w
    end.

(** A call of one of the four factory functions, and a build phase as
    the sequence of such calls. *)
Inductive Registration : Type :=
| RegNotFound (host : string)
| RegRedirect (from to : string)
| RegProxy (host to : string)
| RegStatic (host dir : string).

Definition register (r : Registration) : M Globals unit :=
  match r with
  | RegNotFound host => addNotFound host
  | RegRedirect from to => addRedirect from to
  | RegProxy host to => addProxy host to
  | RegStatic host dir => addStatic host dir
  end.

Definition registerAll (rs : list Registration) : M Globals unit :=
  forEach rs register.

(** The variant a registration call writes to, and the host. *)
Definition variantOf (r : Registration) : Variant :=
  match r with
  | RegNotFound _ => VNotFound
  | RegRedirect _ _ => VRedirect
  | RegProxy _ _ => VReverseProxy
  | RegStatic _ _ => VStaticSite
  end.

Definition hostOf (r : Registration) : string :=
  match r with
  | RegNotFound host | RegProxy host _ | RegStatic host _ => host
  | RegRedirect from _ => from
  end.

Definition overlap : list Registration :=
  [ RegStatic overlap_host "/srv/shop/";
    RegNotFound overlap_host;
    RegProxy overlap_host "http://127.0.0.1:9000";
    RegRedirect overlap_host "https://example.com" ].

(** "No validation beyond a non-empty host string": registering the
    empty host is refused, or at least stores nothing for it. *)
Definition requires_nonempty_host (reg : string → M Globals unit) : Prop :=
  ∀ w : World Globals,
    match reg "" w with
    | Ok _ w' => notFound (globals w') !! "" = notFound (globals w) !! ""
    | Exit _ _ | Panic _ _ => True
    end.

End specification.

(** ** Reading the configuration

    The type names [main] compares the [type] key with, per variant. *)
Definition typeName (v : Variant) : string :=
  match v with
  | VNotFound => "NotFound"
  | VReverseProxy => "Proxy"
  | VStaticSite => "Static"
  | VRedirect => "Redirect"
  end.


(** An environment over a given directory of configuration files. *)
Definition dir_platform (dir : list (string * list (string * string)))
    : Platform := {|
  URL := string;
  url_Parse := example_Parse;
  ConfigFile := list (string * string);
  ioutil_ReadDir := fun dirname =>
    if String.eqb dirname "/etc/zproxy.d" then map fst dir else [];
  goconfig_LoadConfigFile := fun fileName =>
    match assoc fileName
            (map (fun f => ("/etc/zproxy.d/" +:+ fst f, snd f)) dir) with
    | Some cfg => inl cfg
    | None => inr "open: no such file or directory"
    end;
  ConfigFile_GetValue := example_GetValue;
|}.

(** A directory with a file of a type [main] does not know, one without
    a [type], and one that is not there any more when it is opened. *)
Definition odd_dir : list (string * list (string * string)) :=
  [ ("mirror.conf", [("host", "mirror.example.com"); ("type", "Mirror");
                     ("to", "https://example.com")]) ].

Definition untyped_dir : list (string * list (string * string)) :=
  [ ("a.conf", [("host", "a.example.com")]) ].

(** ** What net/http makes of a call

    [http.Redirect] and [http.ServeFile] belong to net/http, not to the
    program: the response is the library's work on the operands the
    program passes.  The definitions below follow net/http and net/url
    for the part of that work that decides whether the response is the
    one the operands name: the escaping of the redirect target, and the
    redirect [ServeFile] makes for an index page.  The rest of the
    library (targets without scheme, the file system) is not modelled. *)

(** [strings.HasSuffix(s, suffix)] *)
Definition strings_HasSuffix (s suffix : string) : bool :=
  if decide (String.length suffix ≤ String.length s)
  then String.eqb
         (substring (String.length s - String.length suffix)
            (String.length suffix) s)
         suffix
  else false.

(** A hexadecimal digit as [strconv.AppendInt(_, _, 16)] writes it. *)
Definition hexdigit (n : nat) : ascii :=
  if n <? 10 then ascii_of_nat (48 + n) else ascii_of_nat (87 + n).

(** net/http's [hexEscapeNonASCII]: every byte from 0x80 up is replaced
    by [%] and its two hexadecimal digits; the other bytes stay. *)
Fixpoint hexEscapeNonASCII (s : string) : string :=
  match s with
  | EmptyString => EmptyString
  | String c rest =>
      if 128 <=? nat_of_ascii c
      then String "%"
             (String (hexdigit (nat_of_ascii c / 16))
                (String (hexdigit (nat_of_ascii c mod 16))
                   (hexEscapeNonASCII rest)))
      else String c (hexEscapeNonASCII rest)
  end.

Definition is_letter (c : ascii) : bool :=
  let n := nat_of_ascii c in
  ((97 <=? n) && (n <=? 122)) || ((65 <=? n) && (n <=? 90)).

Definition is_scheme_byte (c : ascii) : bool :=
  let n := nat_of_ascii c in
  is_letter c || ((48 <=? n) && (n <=? 57))
  || (n =? 43) || (n =? 45) || (n =? 46).

(** net/url's [getScheme] finds a scheme: the raw URL starts with a
    letter, goes on with letters, digits, [+], [-] and [.], and reaches
    a colon.  [url.Parse] then either fails or returns a URL with that
    scheme; in both cases [http.Redirect] leaves the target as it is. *)
Fixpoint scheme_ends (s : string) : bool :=
  match s with
  | EmptyString => false
  | String c rest =>
      if is_scheme_byte c then scheme_ends rest
      else Ascii.eqb c ":"
  end.

Definition has_scheme (rawURL : string) : bool :=
  match rawURL with
  | EmptyString => false
  | String c rest => is_letter c && scheme_ends rest
  end.

(** The [Location] header that [http.Redirect(w, r, url, code)] sets for
    a target that has a scheme: [hexEscapeNonASCII(url)].  A target
    without scheme is first resolved against the path of the request;
    that case is left out ([None]). *)
Definition Redirect_Location (url : string) : option string :=
  if has_scheme url then Some (hexEscapeNonASCII url) else None.

(** How [http.ServeFile(w, r, name)] starts (net/http's [serveFile]): a
    request whose URL path ends in [/index.html] is answered with a
    redirect to [./], and no file is opened for it. *)
Definition ServeFile_redirects_index (r : http.Request) : bool :=
  strings_HasSuffix (http.URL_Path r) "/index.html".

Definition ascii_only (s : string) : bool :=
  forallb (fun c => nat_of_ascii c <? 128) (list_ascii_of_string s).

Section responses_specified.
Context `{Platform}.

(** "Its Location header equals destinationPrefix concatenated, by
    literal string concatenation with no encoding transformation, with
    the request URI." *)
Definition location_is_literal (redirect : Redirect.t)
    (request : http.Request) : Prop :=
  Redirect_Location (Redirect.To redirect +:+ http.RequestURI request)
  = Some (Redirect.To redirect +:+ http.RequestURI request).

(** "The file served is [name]", so far as the call decides it: the
    writer received the call of [http.ServeFile] for [name], and
    [ServeFile] does not redirect the request away from the file. *)
Definition file_is_served (request : http.Request) (name : string)
    (call : http.Call) : Prop :=
  call = http.call_ServeFile request name
  ∧ ServeFile_redirects_index request = false.

End responses_specified.

(** A request for a path with a non-ASCII letter (e acute, in UTF-8),
    and one for a page that is not an index. *)
Definition cafe_request : http.Request :=
  http.mkRequest "old.example.com"
    ("/caf" +:+ String (ascii_of_nat 195) (String (ascii_of_nat 169) ""))
    ("/caf" +:+ String (ascii_of_nat 195) (String (ascii_of_nat 169) "")).

Definition page_request : http.Request :=
  http.mkRequest "www.example.com" "/page.html" "/page.html".

(** * Properties *)

(** ** Strings and the logger *)

Lemma substring_whole (s : string) : substring 0 (String.length s) s = s.
Proof. induction s as [|c s IH]; simpl; [done | by rewrite IH]. Qed.

Lemma slice_from_empty : slice_from "" 1 = None.
Proof. reflexivity. Qed.

Lemma slice_from_String (c : ascii) (rest : string) :
  slice_from (String c rest) 1 = Some rest.
Proof.
  unfold slice_from. simpl String.length.
  destruct (decide (1 ≤ S (String.length rest))) as [_|Hn]; [|lia].
  simpl. by rewrite Nat.sub_0_r, substring_whole.
Qed.

Lemma slice_from_None (s : string) : slice_from s 1 = None ↔ s = "".
Proof.
  destruct s as [|c rest]; [done|].
  rewrite slice_from_String. split; discriminate.
Qed.

Lemma ends_with_LF_String (c : ascii) (t : string) :
  ends_with_LF t = true → ends_with_LF (String c t) = true.
Proof. destruct t; [discriminate | done]. Qed.

Lemma ends_with_LF_app (s t : string) :
  ends_with_LF t = true → ends_with_LF (s +:+ t) = true.
Proof.
  intros Ht. induction s as [|c s IH]; [done|].
  simpl. by apply ends_with_LF_String.
Qed.

Ltac ends_LF :=
  solve [ repeat first [ reflexivity
                       | apply ends_with_LF_String
                       | apply ends_with_LF_app ] ].

Section logger.
Context {G : Type}.

Lemma Output_line (s : string) (w : World G) :
  ends_with_LF s = true →
  log.Output s w = Ok tt (mkWorld (stderr w ++ [s]) (globals w)).
Proof. intros Hs. unfold log.Output. by rewrite Hs. Qed.

Lemma Output_globals (s : string) (w : World G) :
  ∃ line, log.Output s w = Ok tt (mkWorld (stderr w ++ [line]) (globals w)).
Proof. unfold log.Output. eauto. Qed.

End logger.

(** ** What each variant does with a request *)

Section variants.
Context `{Platform} {G : Type}.
Implicit Types (writer : http.ResponseWriter) (request : http.Request).
Implicit Types (w : World G).

Lemma Redirect_ServeHTTP_eq (redirect : Redirect.t) writer request w :
  Redirect.ServeHTTP redirect writer request w =
  Ok (writer ++ [http.call_Redirect request
                   (Redirect.To redirect +:+ http.RequestURI request) 301])
     (mkWorld (stderr w ++ ["Redirecting(" +:+ http.Host request +:+ ") "
                            +:+ Redirect.To redirect +:+ LF])
              (globals w)).
Proof.
  unfold Redirect.ServeHTTP, log.Printf, bind.
  rewrite Output_line by (cbn; ends_LF). reflexivity.
Qed.

Lemma Proxy_ServeHTTP_eq (proxy : Proxy.t) writer request w :
  Proxy.ServeHTTP proxy writer request w =
  Ok (writer ++ [http.call_ReverseProxy (Proxy.ReverseProxy proxy) request])
     (mkWorld (stderr w ++ ["Proxying(" +:+ http.Host request +:+ ") "
                            +:+ Proxy.To proxy +:+ http.RequestURI request
                            +:+ LF])
              (globals w)).
Proof.
  unfold Proxy.ServeHTTP, log.Printf, bind.
  rewrite Output_line by (cbn; ends_LF). reflexivity.
Qed.

Lemma NotFound_ServeHTTP_eq (h : http.Handler) writer request w :
  NotFound.ServeHTTP (NotFound.mk (Some h)) writer request w =
  Ok (writer ++ [http.call_Handler h request])
     (mkWorld (stderr w ++ ["Not Found(" +:+ http.Host request +:+ ") "
                            +:+ http.RequestURI request +:+ LF])
              (globals w)).
Proof.
  unfold NotFound.ServeHTTP, log.Printf, bind.
  rewrite Output_line by (cbn; ends_LF). reflexivity.
Qed.

Lemma NotFound_ServeHTTP_nil writer request w :
  NotFound.ServeHTTP (NotFound.mk None) writer request w =
  Panic "runtime error: invalid memory address or nil pointer dereference"
     (mkWorld (stderr w ++ ["Not Found(" +:+ http.Host request +:+ ") "
                            +:+ http.RequestURI request +:+ LF])
              (globals w)).
Proof.
  unfold NotFound.ServeHTTP, log.Printf, bind.
  rewrite Output_line by (cbn; ends_LF). reflexivity.
Qed.

Lemma Static_ServeHTTP_String (static : Static.t) writer request w c rest :
  http.URL_Path request = String c rest →
  Static.ServeHTTP static writer request w =
  Ok (writer ++ [http.call_ServeFile request (Static.Dir static +:+ rest)])
     (mkWorld (stderr w ++ ["Serving(" +:+ http.Host request +:+ ") "
                            +:+ Static.Dir static +:+ rest +:+ LF])
              (globals w)).
Proof.
  intros Hp. unfold Static.ServeHTTP. rewrite Hp, slice_from_String.
  unfold log.Printf, bind.
  rewrite Output_line by (cbn; ends_LF). reflexivity.
Qed.

Lemma Static_ServeHTTP_empty (static : Static.t) writer request w :
  http.URL_Path request = "" →
  Static.ServeHTTP static writer request w =
  Panic "runtime error: slice bounds out of range [1:0]" w.
Proof. intros Hp. unfold Static.ServeHTTP. by rewrite Hp. Qed.

End variants.

(** ** The dispatcher *)

Section dispatcher.
Context `{Platform}.
Implicit Types (writer : http.ResponseWriter) (request : http.Request).
Implicit Types (w : World Globals) (g : Globals).

Lemma Handler_redirect writer request w (thisRedirect : Redirect.t) :
  redirect (globals w) !! http.Host request = Some thisRedirect →
  Handler writer request w = Redirect.ServeHTTP thisRedirect writer request w.
Proof. intros Hr. unfold Handler, bind, getGlobals. by rewrite Hr. Qed.

Lemma Handler_proxy writer request w (thisProxy : Proxy.t) :
  redirect (globals w) !! http.Host request = None →
  proxy (globals w) !! http.Host request = Some thisProxy →
  Handler writer request w = Proxy.ServeHTTP thisProxy writer request w.
Proof. intros Hr Hp. unfold Handler, bind, getGlobals. by rewrite Hr, Hp. Qed.

Lemma Handler_notFound writer request w (thisNotFound : NotFound.t) :
  redirect (globals w) !! http.Host request = None →
  proxy (globals w) !! http.Host request = None →
  notFound (globals w) !! http.Host request = Some thisNotFound →
  Handler writer request w = NotFound.ServeHTTP thisNotFound writer request w.
Proof.
  intros Hr Hp Hn. unfold Handler, bind, getGlobals. by rewrite Hr, Hp, Hn.
Qed.

Lemma Handler_static writer request w (thisStatic : Static.t) :
  redirect (globals w) !! http.Host request = None →
  proxy (globals w) !! http.Host request = None →
  notFound (globals w) !! http.Host request = None →
  static (globals w) !! http.Host request = Some thisStatic →
  Handler writer request w = Static.ServeHTTP thisStatic writer request w.
Proof.
  intros Hr Hp Hn Hs. unfold Handler, bind, getGlobals.
  by rewrite Hr, Hp, Hn, Hs.
Qed.

Lemma Handler_miss writer request w :
  redirect (globals w) !! http.Host request = None →
  proxy (globals w) !! http.Host request = None →
  notFound (globals w) !! http.Host request = None →
  static (globals w) !! http.Host request = None →
  Handler writer request w = serveGeneric writer request w.
Proof.
  intros Hr Hp Hn Hs. unfold Handler, bind, getGlobals.
  by rewrite Hr, Hp, Hn, Hs.
Qed.

Lemma serveGeneric_eq writer request w :
  serveGeneric writer request w =
  Ok (writer ++ [http.call_Handler http.NotFoundHandler request])
     (mkWorld (stderr w ++ ["Host Not Found(" +:+ http.Host request +:+ ")"
                            +:+ LF])
              (globals w)).
Proof.
  unfold serveGeneric, log.Printf, bind.
  rewrite Output_line by (cbn; ends_LF). reflexivity.
Qed.

(** A request whose host has a Redirect entry is answered by one call
    of [http.Redirect] with status 301 and, as the target, the entry's
    [To] followed literally by the request URI; the routing table is
    left as it was. *)
Theorem Handler_redirect_location writer request w (thisRedirect : Redirect.t) :
  redirect (globals w) !! http.Host request = Some thisRedirect →
  Handler writer request w =
  Ok (writer ++ [http.call_Redirect request
                   (Redirect.To thisRedirect +:+ http.RequestURI request) 301])
     (mkWorld (stderr w ++ ["Redirecting(" +:+ http.Host request +:+ ") "
                            +:+ Redirect.To thisRedirect +:+ LF])
              (globals w)).
Proof.
  intros Hr. rewrite (Handler_redirect _ _ _ _ Hr).
  apply Redirect_ServeHTTP_eq.
Qed.

(** C3.  A request whose host is in none of the four maps gets the
    generic not-found handler, and only it: the dispatcher returns
    normally, the writer receives the single call of
    [http.NotFoundHandler()], one line is logged, and the maps are
    unchanged. *)
Theorem Handler_unregistered_host writer request w :
  redirect (globals w) !! http.Host request = None →
  proxy (globals w) !! http.Host request = None →
  notFound (globals w) !! http.Host request = None →
  static (globals w) !! http.Host request = None →
  Handler writer request w =
  Ok (writer ++ [http.call_Handler http.NotFoundHandler request])
     (mkWorld (stderr w ++ ["Host Not Found(" +:+ http.Host request +:+ ")"
                            +:+ LF])
              (globals w)).
Proof.
  intros Hr Hp Hn Hs. rewrite Handler_miss by done. apply serveGeneric_eq.
Qed.

(** A request dispatched to a StaticSite entry, with a path that
    starts with the separator, is answered by one call of
    [http.ServeFile] on the entry's [Dir] followed by the path without
    that separator. *)
Theorem Handler_static_file writer request w (thisStatic : Static.t)
    (rest : string) :
  redirect (globals w) !! http.Host request = None →
  proxy (globals w) !! http.Host request = None →
  notFound (globals w) !! http.Host request = None →
  static (globals w) !! http.Host request = Some thisStatic →
  http.URL_Path request = "/" +:+ rest →
  Handler writer request w =
  Ok (writer ++ [http.call_ServeFile request
                   (Static.Dir thisStatic +:+ rest)])
     (mkWorld (stderr w ++ ["Serving(" +:+ http.Host request +:+ ") "
                            +:+ Static.Dir thisStatic +:+ rest +:+ LF])
              (globals w)).
Proof.
  intros Hr Hp Hn Hs Hpath.
  rewrite (Handler_static _ _ _ _ Hr Hp Hn Hs).
  by apply (Static_ServeHTTP_String _ _ _ _ "/"%char rest).
Qed.

(** C10.  [request.URL.Path[1:]] is in bounds exactly when the path is
    not empty: the StaticSite handler returns normally exactly then and
    panics on the empty path; and on a path of first byte [c] it serves
    [Dir] followed by the rest of the path, whatever [c] is. *)
Theorem Static_ServeHTTP_slice (static : Static.t) writer request w :
  (is_Some (slice_from (http.URL_Path request) 1)
     ↔ http.URL_Path request ≠ "")
  ∧ (is_Ok (Static.ServeHTTP static writer request w) = true
     ↔ http.URL_Path request ≠ "")
  ∧ (http.URL_Path request = "" →
     Static.ServeHTTP static writer request w =
     Panic "runtime error: slice bounds out of range [1:0]" w)
  ∧ (∀ (c : ascii) (rest : string),
       http.URL_Path request = String c rest →
       outcome (Static.ServeHTTP static writer request w) =
       inl (writer ++ [http.call_ServeFile request
                         (Static.Dir static +:+ rest)])).
Proof.
  split_and!.
  - rewrite <- not_eq_None_Some. by rewrite slice_from_None.
  - destruct (http.URL_Path request) as [|c rest] eqn:Hp.
    + rewrite Static_ServeHTTP_empty by done. simpl. split; [discriminate | done].
    + rewrite (Static_ServeHTTP_String _ _ _ _ c rest) by done. simpl.
      split; [discriminate | done].
  - apply Static_ServeHTTP_empty.
  - intros c rest Hp.
    by rewrite (Static_ServeHTTP_String _ _ _ _ c rest).
Qed.

End dispatcher.

(** ** Dispatching reads the maps and writes none *)

Section determinism.
Context `{Platform}.
Implicit Types (writer : http.ResponseWriter) (request : http.Request).
Implicit Types (w : World Globals).

(** The answer to a request, as a function of the maps alone. *)
Lemma Handler_reads_globals writer request w1 w2 :
  globals w1 = globals w2 →
  outcome (Handler writer request w1) = outcome (Handler writer request w2).
Proof.
  intros Hg. unfold Handler, bind, getGlobals. rewrite Hg.
  destruct (redirect (globals w2) !! http.Host request) as [r|].
  { by rewrite !Redirect_ServeHTTP_eq. }
  destruct (proxy (globals w2) !! http.Host request) as [p|].
  { by rewrite !Proxy_ServeHTTP_eq. }
  destruct (notFound (globals w2) !! http.Host request) as [[[h|]]|].
  { by rewrite !NotFound_ServeHTTP_eq. }
  { by rewrite !NotFound_ServeHTTP_nil. }
  destruct (static (globals w2) !! http.Host request) as [s|].
  { destruct (http.URL_Path request) as [|c rest] eqn:Hp.
    - by rewrite !Static_ServeHTTP_empty.
    - by rewrite !(Static_ServeHTTP_String _ _ _ _ c rest). }
  unfold log.Printf. by rewrite !Output_line by (cbn; ends_LF).
Qed.

(** However it ends, a dispatch leaves the maps as they were, returns
    or panics (it never ends the process), and hands the writer one
    call when it returns. *)
Lemma Handler_effect writer request w :
  globals (world_of (Handler writer request w)) = globals w
  ∧ (∀ code w', Handler writer request w ≠ Exit code w')
  ∧ (∀ writer' w', Handler writer request w = Ok writer' w' →
       ∃ call, writer' = writer ++ [call]).
Proof.
  unfold Handler, bind, getGlobals.
  destruct (redirect (globals w) !! http.Host request) as [r|].
  { rewrite Redirect_ServeHTTP_eq. split_and!; [done | done |].
    intros ?? [= <- <-]. eauto. }
  destruct (proxy (globals w) !! http.Host request) as [p|].
  { rewrite Proxy_ServeHTTP_eq. split_and!; [done | done |].
    intros ?? [= <- <-]. eauto. }
  destruct (notFound (globals w) !! http.Host request) as [[[h|]]|].
  { rewrite NotFound_ServeHTTP_eq. split_and!; [done | done |].
    intros ?? [= <- <-]. eauto. }
  { rewrite NotFound_ServeHTTP_nil. split_and!; done. }
  destruct (static (globals w) !! http.Host request) as [s|].
  { destruct (http.URL_Path request) as [|c rest] eqn:Hp.
    - rewrite Static_ServeHTTP_empty by done. split_and!; done.
    - rewrite (Static_ServeHTTP_String _ _ _ _ c rest) by done.
      split_and!; [done | done |]. intros ?? [= <- <-]. eauto. }
  unfold log.Printf. rewrite Output_line by (cbn; ends_LF).
  split_and!; [done | done |]. intros ?? [= <- <-]. eauto.
Qed.

(** C9.  Dispatching the same request twice, the second time in the
    world the first one left, gives the same answer; the answer depends
    on the maps only, the maps are unchanged by a dispatch, and a
    dispatch never ends the process. *)
Theorem Handler_deterministic writer request w :
  outcome (Handler writer request (world_of (Handler writer request w)))
    = outcome (Handler writer request w)
  ∧ globals (world_of (Handler writer request w)) = globals w
  ∧ (∀ w2, globals w2 = globals w →
       outcome (Handler writer request w2)
       = outcome (Handler writer request w))
  ∧ (∀ code w', Handler writer request w ≠ Exit code w').
Proof.
  destruct (Handler_effect writer request w) as (Hg & Hexit & _).
  split_and!; [| done | | done].
  - by apply Handler_reads_globals.
  - intros w2 Hw2. by apply Handler_reads_globals.
Qed.

End determinism.

(** ** The factory functions *)

Section registration.
Context `{Platform}.
Implicit Types (w : World Globals) (host : string).

Lemma bind_Ok {A B} (m : M Globals A) (k : A → M Globals B) w a w' :
  m w = Ok a w' → bind m k w = k a w'.
Proof. intros Hm. unfold bind. by rewrite Hm. Qed.

Lemma bind_Exit {A B} (m : M Globals A) (k : A → M Globals B) w code w' :
  m w = Exit code w' → bind m k w = Exit code w'.
Proof. intros Hm. unfold bind. by rewrite Hm. Qed.

Lemma addNotFound_eq host w :
  addNotFound host w =
  Ok tt (mkWorld
           (stderr w ++ ["Adding host to notFound: " +:+ host +:+ LF])
           (mkGlobals (redirect (globals w)) (proxy (globals w))
              (<[host := NotFound.mk (Some http.NotFoundHandler)]>
                 (notFound (globals w)))
              (static (globals w)))).
Proof.
  unfold addNotFound, log.Println, bind.
  rewrite Output_line by (cbn; ends_LF). reflexivity.
Qed.

Lemma addRedirect_eq (from to : string) w :
  addRedirect from to w =
  Ok tt (mkWorld
           (stderr w ++ ["Adding from/to: " +:+ from +:+ " " +:+ to +:+ LF])
           (mkGlobals
              (<[from := Redirect.mk to None]> (redirect (globals w)))
              (proxy (globals w)) (notFound (globals w))
              (static (globals w)))).
Proof.
  unfold addRedirect, log.Println, bind.
  rewrite Output_line by (cbn; ends_LF). reflexivity.
Qed.

Lemma addStatic_eq (host dir : string) w :
  addStatic host dir w =
  Ok tt (mkWorld (stderr w)
           (mkGlobals (redirect (globals w)) (proxy (globals w))
              (notFound (globals w))
              (<[host := Static.mk dir (Some (http.FileServer dir))]>
                 (static (globals w))))).
Proof. reflexivity. Qed.

Lemma addProxy_parsed (host to : string) (u : URL) w :
  url_Parse to = inl u →
  addProxy host to w =
  Ok tt (mkWorld (stderr w)
           (mkGlobals (redirect (globals w))
              (<[host := Proxy.mk to (httputil.NewSingleHostReverseProxy u)]>
                 (proxy (globals w)))
              (notFound (globals w)) (static (globals w)))).
Proof. intros Hu. unfold addProxy. by rewrite Hu. Qed.

Lemma Fatal_eq {A} (err : error) w :
  ∃ line, log.Fatal (A:=A) err w
          = Exit 1 (mkWorld (stderr w ++ [line]) (globals w)).
Proof. unfold log.Fatal, log.Output, bind, os_Exit. eauto. Qed.

Lemma addProxy_fatal (host to : string) (err : error) w :
  url_Parse to = inr err →
  ∃ line, addProxy host to w
          = Exit 1 (mkWorld (stderr w ++ [line]) (globals w)).
Proof. intros Hu. unfold addProxy. rewrite Hu. apply Fatal_eq. Qed.

(** C6 (as the code has it).  [addNotFound] validates nothing: for
    every host string, the empty one included, it returns normally,
    logs one line, and stores a NotFound entry for that host, leaving
    the three other maps and every other host alone. *)
Theorem addNotFound_unconditional host w :
  addNotFound host w =
  Ok tt (mkWorld
           (stderr w ++ ["Adding host to notFound: " +:+ host +:+ LF])
           (mkGlobals (redirect (globals w)) (proxy (globals w))
              (<[host := NotFound.mk (Some http.NotFoundHandler)]>
                 (notFound (globals w)))
              (static (globals w))))
  ∧ notFound (globals (world_of (addNotFound host w))) !! host
    = Some (NotFound.mk (Some http.NotFoundHandler))
  ∧ (∀ other, other ≠ host →
       notFound (globals (world_of (addNotFound host w))) !! other
       = notFound (globals w) !! other).
Proof.
  rewrite addNotFound_eq. simpl. split_and!; [done | |].
  - apply lookup_insert_eq.
  - intros other Hne. by apply lookup_insert_ne.
Qed.

(** C7.  Each factory function, called twice with the same arguments,
    leaves the maps as one call does.  A second call for the same host
    in the same map replaces the entry: the maps are then those of the
    second call alone, and the host's entry is the one registered
    last.  (For [addProxy] the first call must have returned: a URL
    that does not parse ends the process.)  Every call that returns has
    stored its entry for the host, [addNotFound] included, after one
    call as after two. *)
Theorem registration_idempotent_last_wins host (a b : string) w :
  (globals (world_of ((addNotFound host ;; addNotFound host) w))
     = globals (world_of (addNotFound host w))
   ∧ globals (world_of ((addRedirect host a ;; addRedirect host a) w))
     = globals (world_of (addRedirect host a w))
   ∧ globals (world_of ((addProxy host a ;; addProxy host a) w))
     = globals (world_of (addProxy host a w))
   ∧ globals (world_of ((addStatic host a ;; addStatic host a) w))
     = globals (world_of (addStatic host a w)))
  ∧ (globals (world_of ((addRedirect host a ;; addRedirect host b) w))
       = globals (world_of (addRedirect host b w))
     ∧ redirect (globals (world_of
         ((addRedirect host a ;; addRedirect host b) w))) !! host
       = Some (Redirect.mk b None))
  ∧ (globals (world_of ((addStatic host a ;; addStatic host b) w))
       = globals (world_of (addStatic host b w))
     ∧ static (globals (world_of
         ((addStatic host a ;; addStatic host b) w))) !! host
       = Some (Static.mk b (Some (http.FileServer b))))
  ∧ (∀ ua ub : URL, url_Parse a = inl ua → url_Parse b = inl ub →
       globals (world_of ((addProxy host a ;; addProxy host b) w))
       = globals (world_of (addProxy host b w))
     ∧ proxy (globals (world_of
         ((addProxy host a ;; addProxy host b) w))) !! host
       = Some (Proxy.mk b (httputil.NewSingleHostReverseProxy ub)))
  ∧ (notFound (globals (world_of (addNotFound host w))) !! host
       = Some (NotFound.mk (Some http.NotFoundHandler))
     ∧ notFound (globals (world_of
         ((addNotFound host ;; addNotFound host) w))) !! host
       = Some (NotFound.mk (Some http.NotFoundHandler)))
  ∧ (redirect (globals (world_of (addRedirect host a w))) !! host
       = Some (Redirect.mk a None)
     ∧ static (globals (world_of (addStatic host a w))) !! host
       = Some (Static.mk a (Some (http.FileServer a)))
     ∧ ∀ ua : URL, url_Parse a = inl ua →
         proxy (globals (world_of (addProxy host a w))) !! host
         = Some (Proxy.mk a (httputil.NewSingleHostReverseProxy ua))).
Proof.
  split_and!.
  - erewrite bind_Ok by apply addNotFound_eq. rewrite !addNotFound_eq.
    simpl. by rewrite insert_insert_eq.
  - erewrite bind_Ok by apply addRedirect_eq. rewrite !addRedirect_eq.
    simpl. by rewrite insert_insert_eq.
  - destruct (url_Parse a) as [u|err] eqn:Hu.
    + erewrite bind_Ok by (by apply addProxy_parsed).
      rewrite !(addProxy_parsed _ _ u) by done.
      simpl. by rewrite insert_insert_eq.
    + destruct (addProxy_fatal host a err w Hu) as [line Hf].
      erewrite bind_Exit by apply Hf. by rewrite Hf.
  - erewrite bind_Ok by apply addStatic_eq. rewrite !addStatic_eq.
    simpl. by rewrite insert_insert_eq.
  - erewrite bind_Ok by apply addRedirect_eq. rewrite !addRedirect_eq.
    simpl. by rewrite insert_insert_eq.
  - erewrite bind_Ok by apply addRedirect_eq. rewrite !addRedirect_eq.
    simpl. apply lookup_insert_eq.
  - erewrite bind_Ok by apply addStatic_eq. rewrite !addStatic_eq.
    simpl. by rewrite insert_insert_eq.
  - erewrite bind_Ok by apply addStatic_eq. rewrite !addStatic_eq.
    simpl. apply lookup_insert_eq.
  - intros ua ub Ha Hb.
    erewrite bind_Ok by (by apply addProxy_parsed).
    rewrite !(addProxy_parsed _ _ ub) by done. simpl.
    split; [by rewrite insert_insert_eq | apply lookup_insert_eq].
  - rewrite addNotFound_eq. simpl. apply lookup_insert_eq.
  - erewrite bind_Ok by apply addNotFound_eq. rewrite addNotFound_eq.
    simpl. apply lookup_insert_eq.
  - rewrite addRedirect_eq. simpl. apply lookup_insert_eq.
  - rewrite addStatic_eq. simpl. apply lookup_insert_eq.
  - intros ua Ha. rewrite (addProxy_parsed _ _ ua) by done.
    simpl. apply lookup_insert_eq.
Qed.

End registration.

(** ** Start-up: a fatal error ends the process before it serves *)

Section startup.
Context `{Platform}.
Implicit Types (w : World Globals).

(** [m] returns or ends the process with status 1; it never panics. *)
Local Abbreviation safe m := (∀ w, ok_or_fatal (m w)).

Lemma safe_bind {A B} (m : M Globals A) (k : A → M Globals B) :
  safe m → (∀ a, safe (k a)) → safe (bind m k).
Proof.
  intros Hm Hk w. unfold bind. specialize (Hm w).
  destruct (m w) as [a w'| |]; [apply Hk | done | done].
Qed.

Lemma safe_Println (args : list string) : safe (log.Println (G:=Globals) args).
Proof. done. Qed.

Lemma safe_checkErr {A} (r : A + error) : safe (checkErr r).
Proof.
  intros w. destruct r as [v|err]; [done|].
  destruct (Fatal_eq (A:=A) err w) as [line Hf].
  unfold checkErr. by rewrite Hf.
Qed.

Lemma safe_when (cond : bool) (body : M Globals unit) :
  safe body → safe (when cond body).
Proof. intros Hb w. destruct cond; [apply Hb | done]. Qed.

Lemma safe_addProxy (host to : string) : safe (addProxy host to).
Proof.
  intros w. destruct (url_Parse to) as [u|err] eqn:Hu.
  - by rewrite (addProxy_parsed _ _ u).
  - by destruct (addProxy_fatal host to err w Hu) as [line ->].
Qed.

Lemma safe_loadFile (name : string) : safe (loadFile name).
Proof.
  unfold loadFile.
  repeat first
    [ apply safe_checkErr
    | apply safe_addProxy
    | apply safe_when
    | intros w; by rewrite addNotFound_eq
    | intros w; by rewrite addRedirect_eq
    | intros w; by rewrite addStatic_eq
    | exact (safe_Println _)
    | apply safe_bind; [|intros ?] ].
Qed.

(** A configuration file of type [Proxy] whose [to] does not parse ends
    the process when it is loaded, in whatever state. *)
Lemma loadFile_fatal (name : string) (cfg : ConfigFile)
    (host to : string) (err : error) w :
  goconfig_LoadConfigFile (configDir +:+ "/" +:+ name) = inl cfg →
  ConfigFile_GetValue cfg "DEFAULT" "host" = inl host →
  ConfigFile_GetValue cfg "DEFAULT" "type" = inl "Proxy" →
  ConfigFile_GetValue cfg "DEFAULT" "to" = inl to →
  url_Parse to = inr err →
  ∃ w', loadFile name w = Exit 1 w'.
Proof.
  intros Hload Hhost Htyp Hto Hu.
  unfold loadFile. rewrite Hload.
  unfold bind at 1. simpl. unfold bind at 1. simpl.
  rewrite Hhost. unfold bind at 1. simpl. unfold bind at 1. simpl.
  rewrite Htyp. unfold bind at 1. simpl. unfold bind at 1. simpl.
  unfold bind at 1. simpl. unfold bind at 1. simpl.
  rewrite Hto. unfold bind at 1. simpl. unfold bind at 1. simpl.
  match goal with |- context [addProxy host to ?w0] =>
    destruct (addProxy_fatal host to err w0 Hu) as [line ->]
  end.
  eauto.
Qed.

Lemma forEach_fatal {A} (l : list A) (body : A → M Globals unit) (x : A) :
  (∀ y, safe (body y)) →
  In x l →
  (∀ w, ∃ w', body x w = Exit 1 w') →
  ∀ w, ∃ w', forEach l body w = Exit 1 w'.
Proof.
  intros Hsafe Hin Hx.
  induction l as [|y l IH]; [done|].
  intros w. simpl. unfold bind.
  pose proof (Hsafe y w) as Hy.
  destruct (body y w) as [[] w1|code w1|msg w1] eqn:Hb; simpl in Hy.
  - destruct Hin as [->|Hin].
    + destruct (Hx w) as [w' Hw']. congruence.
    + by apply IH.
  - subst code. eauto.
  - done.
Qed.

(** C4.  [addProxy] parses [to].  When it parses, the call returns and
    the proxy map holds, for the host, an entry with [to] and the
    forwarding client [NewSingleHostReverseProxy] builds from the parsed
    URL.  When it does not, the call ends the process with status 1:
    nothing sequenced after it runs, and a configuration directory with
    such a file makes [main] exit in its set-up, before the server
    starts, whatever the other files are and whatever the server would
    have been handed. *)
Theorem addProxy_parse_or_abort (host to : string) w :
  (∀ u : URL, url_Parse to = inl u →
     addProxy host to w =
     Ok tt (mkWorld (stderr w)
              (mkGlobals (redirect (globals w))
                 (<[host := Proxy.mk to (httputil.NewSingleHostReverseProxy u)]>
                    (proxy (globals w)))
                 (notFound (globals w)) (static (globals w)))))
  ∧ (∀ err : error, url_Parse to = inr err →
       (∃ line, addProxy host to w
                = Exit 1 (mkWorld (stderr w ++ [line]) (globals w)))
       ∧ (∀ (B : Type) (k : unit → M Globals B),
            bind (addProxy host to) k w = Exit 1 (world_of (addProxy host to w)))
       ∧ (∀ (name : string) (cfg : ConfigFile)
            (accepted : list (http.Request * string)) (last : option error)
            (w0 : World Globals),
            In name (ioutil_ReadDir configDir) →
            goconfig_LoadConfigFile (configDir +:+ "/" +:+ name) = inl cfg →
            ConfigFile_GetValue cfg "DEFAULT" "host" = inl host →
            ConfigFile_GetValue cfg "DEFAULT" "type" = inl "Proxy" →
            ConfigFile_GetValue cfg "DEFAULT" "to" = inl to →
            ∃ w', setup w0 = Exit 1 w'
                  ∧ main accepted last w0 = Exit 1 w')).
Proof.
  split.
  - intros u Hu. by apply addProxy_parsed.
  - intros err Hu. split_and!.
    + by apply (addProxy_fatal host to err).
    + intros B k. destruct (addProxy_fatal host to err w Hu) as [line Hf].
      rewrite Hf. simpl. by apply bind_Exit.
    + intros name cfg accepted last w0 Hin Hload Hhost Htyp Hto.
      assert (∃ w', setup w0 = Exit 1 w') as [w' Hw'].
      { unfold setup.
        erewrite (bind_Ok (modifyGlobals _)) by reflexivity.
        destruct (forEach_fatal (ioutil_ReadDir configDir) loadFile name
                    safe_loadFile Hin
                    (fun w => loadFile_fatal name cfg host to err w
                                Hload Hhost Htyp Hto Hu)
                    (mkWorld (stderr w0) (mkGlobals ∅ ∅ ∅ ∅))) as [w' Hw'].
        exists w'. by apply bind_Exit. }
      exists w'. split; [done|]. unfold main. by apply bind_Exit.
Qed.

End startup.

(** ** Precedence between the maps *)

Section precedence.
Context `{Platform}.
Implicit Types (writer : http.ResponseWriter) (request : http.Request).
Implicit Types (w : World Globals) (g : Globals) (host : string).

Lemma Handler_dispatch writer request w :
  Handler writer request w = dispatch writer request w.
Proof.
  unfold Handler, dispatch, chosen, precedence, registered, handlerOf,
    bind, getGlobals. simpl.
  destruct (redirect (globals w) !! http.Host request) as [r|]; [done|].
  destruct (proxy (globals w) !! http.Host request) as [p|]; [done|].
  destruct (notFound (globals w) !! http.Host request) as [n|]; [done|].
  destruct (static (globals w) !! http.Host request) as [s|]; done.
Qed.

Lemma registered_insert {V F} (f : V → F) (m : gmap string V)
    (host h : string) (x : V) :
  match f <$> (<[host := x]> m) !! h with Some _ => true | None => false end
    = true
  ↔ match f <$> m !! h with Some _ => true | None => false end = true
    ∨ host = h.
Proof.
  destruct (decide (host = h)) as [->|Hne].
  - rewrite lookup_insert_eq. simpl. tauto.
  - rewrite lookup_insert_ne by done. tauto.
Qed.

(** What one factory call changes in "which variants have which host". *)
Lemma register_registered (r : Registration) w w' :
  register r w = Ok tt w' →
  ∀ v h, registered (globals w') h v = true
         ↔ registered (globals w) h v = true
           ∨ (variantOf r = v ∧ hostOf r = h).
Proof.
  intros Hr v h.
  assert (∃ g', globals w' = g' ∧
    (registered g' h v = true
     ↔ registered (globals w) h v = true
       ∨ (variantOf r = v ∧ hostOf r = h))) as (g' & -> & Hg'); [|done].
  destruct r as [host|from to|host to|host dir]; simpl in Hr.
  - rewrite addNotFound_eq in Hr. injection Hr as <-.
    eexists; split; [reflexivity|].
    unfold registered. destruct v; simpl;
      rewrite ?registered_insert; intuition congruence.
  - rewrite addRedirect_eq in Hr. injection Hr as <-.
    eexists; split; [reflexivity|].
    unfold registered. destruct v; simpl;
      rewrite ?registered_insert; intuition congruence.
  - destruct (url_Parse to) as [u|err] eqn:Hu.
    + rewrite (addProxy_parsed _ _ u) in Hr by done. injection Hr as <-.
      eexists; split; [reflexivity|].
      unfold registered. destruct v; simpl;
        rewrite ?registered_insert; intuition congruence.
    + destruct (addProxy_fatal host to err w Hu) as [line Hf]. congruence.
  - rewrite addStatic_eq in Hr. injection Hr as <-.
    eexists; split; [reflexivity|].
    unfold registered. destruct v; simpl;
      rewrite ?registered_insert; intuition congruence.
Qed.

Lemma registerAll_registered (rs : list Registration) w w' :
  registerAll rs w = Ok tt w' →
  ∀ v h, registered (globals w') h v = true
         ↔ registered (globals w) h v = true
           ∨ ∃ r, In r rs ∧ variantOf r = v ∧ hostOf r = h.
Proof.
  revert w. induction rs as [|r rs IH]; intros w Hrs v h.
  - injection Hrs as <-. split; [by left | by intros [?|(? & [] & _)]].
  - unfold registerAll in Hrs. simpl in Hrs. unfold bind in Hrs.
    destruct (register r w) as [[] w1| |] eqn:Hr; [|done|done].
    rewrite (IH w1 Hrs v h), (register_registered r w w1 Hr v h).
    simpl. split.
    + intros [[?|[? ?]]|(r' & ? & ?)]; [by left | right; exists r | right; exists r']; tauto.
    + intros [?|(r' & [<-|?] & ? & ?)]; [tauto | tauto |].
      right. exists r'. tauto.
Qed.

Lemma chosen_ext g1 g2 host :
  (∀ v, registered g1 host v = true ↔ registered g2 host v = true) →
  chosen g1 host = chosen g2 host.
Proof.
  intros Hreg. unfold chosen, precedence. simpl.
  by rewrite !(Bool.eq_true_iff_eq _ _ (Hreg _)).
Qed.

(** C1.  [Handler] is the dispatcher of the specification: it invokes
    the handler of the first variant, in the order Redirect,
    ReverseProxy, NotFound, StaticSite, whose map has the host, and no
    other; a dispatch that returns has made one call on the writer.
    Which variant is chosen is the same for two build phases that make
    the same factory calls in different orders. *)
Theorem Handler_precedence writer request w :
  Handler writer request w = dispatch writer request w
  ∧ (∀ e, redirect (globals w) !! http.Host request = Some e →
       chosen (globals w) (http.Host request) = Some VRedirect
       ∧ Handler writer request w = Redirect.ServeHTTP e writer request w)
  ∧ (∀ e, redirect (globals w) !! http.Host request = None →
       proxy (globals w) !! http.Host request = Some e →
       chosen (globals w) (http.Host request) = Some VReverseProxy
       ∧ Handler writer request w = Proxy.ServeHTTP e writer request w)
  ∧ (∀ e, redirect (globals w) !! http.Host request = None →
       proxy (globals w) !! http.Host request = None →
       notFound (globals w) !! http.Host request = Some e →
       chosen (globals w) (http.Host request) = Some VNotFound
       ∧ Handler writer request w = NotFound.ServeHTTP e writer request w)
  ∧ (∀ e, redirect (globals w) !! http.Host request = None →
       proxy (globals w) !! http.Host request = None →
       notFound (globals w) !! http.Host request = None →
       static (globals w) !! http.Host request = Some e →
       chosen (globals w) (http.Host request) = Some VStaticSite
       ∧ Handler writer request w = Static.ServeHTTP e writer request w)
  ∧ (∀ writer' w', Handler writer request w = Ok writer' w' →
       ∃ call, writer' = writer ++ [call])
  ∧ (∀ (rs rs' : list Registration) w1 w2,
       Permutation rs rs' →
       registerAll rs w = Ok tt w1 →
       registerAll rs' w = Ok tt w2 →
       chosen (globals w1) (http.Host request)
       = chosen (globals w2) (http.Host request)).
Proof.
  split_and!.
  - apply Handler_dispatch.
  - intros e Hr. split; [|by apply Handler_redirect].
    unfold chosen, registered. simpl. by rewrite Hr.
  - intros e Hr Hp. split; [|by apply Handler_proxy].
    unfold chosen, registered. simpl. by rewrite Hr, Hp.
  - intros e Hr Hp Hn. split; [|by apply Handler_notFound].
    unfold chosen, registered. simpl. by rewrite Hr, Hp, Hn.
  - intros e Hr Hp Hn Hs. split; [|by apply Handler_static].
    unfold chosen, registered. simpl. by rewrite Hr, Hp, Hn, Hs.
  - apply Handler_effect.
  - intros rs rs' w1 w2 Hperm H1 H2. apply chosen_ext. intros v.
    rewrite (registerAll_registered rs w w1 H1),
            (registerAll_registered rs' w w2 H2).
    split; (intros [?|(r & Hin & ?)]; [by left | right; exists r]);
      (split; [|done]).
    + by apply (Permutation_in _ Hperm).
    + by apply (Permutation_in _ (Permutation_sym Hperm)).
Qed.

(** C8.  For a host in none of the maps, the dispatcher's answer is the
    one it gives once [addNotFound] has registered that host: the writer
    receives the same single call of [http.NotFoundHandler()].  The two
    differ in the line they log.  The same holds in any world whose
    NotFound entry for the host is the one [addNotFound] stores and
    whose Redirect and ReverseProxy maps do not have the host. *)
Theorem generic_like_explicit_NotFound writer request w :
  redirect (globals w) !! http.Host request = None →
  proxy (globals w) !! http.Host request = None →
  notFound (globals w) !! http.Host request = None →
  static (globals w) !! http.Host request = None →
  Handler writer request w =
    Ok (writer ++ [http.call_Handler http.NotFoundHandler request])
       (mkWorld (stderr w ++ ["Host Not Found(" +:+ http.Host request +:+ ")"
                              +:+ LF])
                (globals w))
  ∧ outcome ((addNotFound (http.Host request) ;; Handler writer request) w)
    = outcome (Handler writer request w)
  ∧ stderr (world_of
      ((addNotFound (http.Host request) ;; Handler writer request) w))
    = stderr w ++ ["Adding host to notFound: " +:+ http.Host request +:+ LF;
                   "Not Found(" +:+ http.Host request +:+ ") "
                   +:+ http.RequestURI request +:+ LF]
  ∧ (∀ w2,
       redirect (globals w2) !! http.Host request = None →
       proxy (globals w2) !! http.Host request = None →
       notFound (globals w2) !! http.Host request
         = Some (NotFound.mk (Some http.NotFoundHandler)) →
       outcome (Handler writer request w2)
       = outcome (Handler writer request w)).
Proof.
  intros Hr Hp Hn Hs.
  rewrite (Handler_miss _ _ _ Hr Hp Hn Hs), serveGeneric_eq.
  split_and!; [done | | |].
  - erewrite bind_Ok by apply addNotFound_eq.
    erewrite Handler_notFound;
      [| done | done | simpl; apply lookup_insert_eq].
    by rewrite NotFound_ServeHTTP_eq.
  - erewrite bind_Ok by apply addNotFound_eq.
    erewrite Handler_notFound;
      [| done | done | simpl; apply lookup_insert_eq].
    rewrite NotFound_ServeHTTP_eq. simpl. by rewrite <- app_assoc.
  - intros w2 Hr2 Hp2 Hn2.
    rewrite (Handler_notFound _ _ _ _ Hr2 Hp2 Hn2).
    by rewrite NotFound_ServeHTTP_eq.
Qed.

End precedence.

(** ** The properties on concrete inputs *)

(** C1 on a host registered under all four variants: built in one
    order or in the reverse one, the redirect serves it. *)
Lemma Handler_precedence_overlap :
  Permutation overlap (rev overlap)
  ∧ chosen (globals (world_of (registerAll (H:=example_platform) overlap start)))
      overlap_host
    = chosen (globals (world_of
        (registerAll (H:=example_platform) (rev overlap) start)))
      overlap_host
  ∧ outcome (Handler (H:=example_platform) [] overlap_request
               (world_of (registerAll (rev overlap) start)))
    = inl [http.call_Redirect overlap_request
             "https://example.com/cart?item=7" 301].
Proof.
  split; [apply Permutation_rev|].
  destruct (Handler_precedence (H:=example_platform) [] overlap_request start)
    as (_ & _ & _ & _ & _ & _ & Horder).
  split.
  - apply (Horder overlap (rev overlap)); [apply Permutation_rev | |];
      vm_compute; reflexivity.
  - vm_compute. reflexivity.
Defined.

(** C3 on a process with no host registered. *)
Lemma Handler_unregistered_host_example :
  outcome (Handler (H:=example_platform) [] stray_request start)
  = inl [http.call_Handler http.NotFoundHandler stray_request].
Proof.
  rewrite (Handler_unregistered_host (H:=example_platform) [] stray_request
             start);
    [reflexivity | vm_compute; reflexivity ..].
Defined.

(** C4 on a directory whose second file has an upstream URL with a
    control character: [main] exits with status 1 in its set-up. *)
Lemma addProxy_abort_example :
  url_Parse (Platform:=broken_platform) broken_upstream
    = inr "parse: net/url: invalid control character in URL"
  ∧ ∃ w', setup (H:=broken_platform) start = Exit 1 w'
          ∧ main (H:=broken_platform) [(static_request, "")]
              (Some "listen tcp 127.0.0.1:80: bind: permission denied") start
            = Exit 1 w'.
Proof.
  split; [vm_compute; reflexivity|].
  destruct (addProxy_parse_or_abort (H:=broken_platform)
              "api.example.com" broken_upstream start) as [_ Hfatal].
  destruct (Hfatal "parse: net/url: invalid control character in URL")
    as (_ & _ & Hmain); [vm_compute; reflexivity|].
  apply (Hmain "b.conf"
           [("host", "api.example.com"); ("type", "Proxy");
            ("to", broken_upstream)]);
    [ right; left; reflexivity | vm_compute; reflexivity .. ].
Defined.

(** C6 as the specification has it fails: [addNotFound] takes the
    empty host and stores an entry for it. *)
Lemma addNotFound_accepts_empty_host :
  ¬ requires_nonempty_host (H:=example_platform) addNotFound.
Proof.
  intros Hreq. specialize (Hreq start).
  rewrite addNotFound_eq in Hreq. simpl in Hreq.
  rewrite lookup_insert_eq, lookup_empty in Hreq. discriminate.
Qed.

(** C7 on two upstreams registered for one host: the second is kept;
    and on a host declared not found twice: its entry is there. *)
Lemma registration_last_wins_example :
  proxy (globals (world_of
    ((addProxy (H:=example_platform) "api.example.com" "http://127.0.0.1:9000" ;;
      addProxy "api.example.com" "http://127.0.0.1:9001") start)))
    !! "api.example.com"
  = Some (Proxy.mk "http://127.0.0.1:9001"
            (httputil.NewSingleHostReverseProxy
               ("http://127.0.0.1:9001" : URL (Platform:=example_platform))))
  ∧ notFound (globals (world_of
      ((addNotFound (H:=example_platform) "gone.example.com" ;;
        addNotFound "gone.example.com") start)))
      !! "gone.example.com"
    = Some (NotFound.mk (Some http.NotFoundHandler)).
Proof.
  destruct (registration_idempotent_last_wins (H:=example_platform)
              "api.example.com" "http://127.0.0.1:9000"
              "http://127.0.0.1:9001" start)
    as (_ & _ & _ & Hproxy & _).
  destruct (registration_idempotent_last_wins (H:=example_platform)
              "gone.example.com" "" "" start)
    as (_ & _ & _ & _ & [_ Hgone] & _).
  split; [|exact Hgone].
  apply (Hproxy "http://127.0.0.1:9000" "http://127.0.0.1:9001");
    vm_compute; reflexivity.
Defined.

(** C8 on a process with no host registered. *)
Lemma generic_like_explicit_NotFound_example :
  outcome ((addNotFound (H:=example_platform) "nobody.example.com" ;;
            Handler [] stray_request) start)
  = outcome (Handler (H:=example_platform) [] stray_request start).
Proof.
  apply (generic_like_explicit_NotFound (H:=example_platform) []
           stray_request start);
    vm_compute; reflexivity.
Defined.

(** * Further properties of the program *)

(** ** Registering a route, then dispatching *)

Section routes.
Context `{Platform}.
Implicit Types (writer : http.ResponseWriter) (request : http.Request).
Implicit Types (w : World Globals) (host : string).

(** The answer to a request depends on the four entries of its own
    host, and on nothing else in the maps. *)
Lemma Handler_reads_host writer request w1 w2 :
  redirect (globals w1) !! http.Host request
    = redirect (globals w2) !! http.Host request →
  proxy (globals w1) !! http.Host request
    = proxy (globals w2) !! http.Host request →
  notFound (globals w1) !! http.Host request
    = notFound (globals w2) !! http.Host request →
  static (globals w1) !! http.Host request
    = static (globals w2) !! http.Host request →
  outcome (Handler writer request w1) = outcome (Handler writer request w2).
Proof.
  intros Hr Hp Hn Hs. unfold Handler, bind, getGlobals.
  rewrite Hr, Hp, Hn, Hs.
  destruct (redirect (globals w2) !! http.Host request) as [r|].
  { by rewrite !Redirect_ServeHTTP_eq. }
  destruct (proxy (globals w2) !! http.Host request) as [p|].
  { by rewrite !Proxy_ServeHTTP_eq. }
  destruct (notFound (globals w2) !! http.Host request) as [[[h|]]|].
  { by rewrite !NotFound_ServeHTTP_eq. }
  { by rewrite !NotFound_ServeHTTP_nil. }
  destruct (static (globals w2) !! http.Host request) as [s|].
  { destruct (http.URL_Path request) as [|c rest] eqn:Hpath.
    - by rewrite !Static_ServeHTTP_empty.
    - by rewrite !(Static_ServeHTTP_String _ _ _ _ c rest). }
  unfold log.Printf. by rewrite !Output_line by (cbn; ends_LF).
Qed.

(** X1.  A route just registered is the one the dispatcher calls for
    its host, unless a map of higher precedence has the host already:
    after [addRedirect] the dispatcher calls [http.Redirect] with the
    new target and 301, whatever the maps held; after [addProxy] with a
    URL that parses it calls the new forwarding client if no redirect
    has the host; after [addNotFound] it calls the not-found handler if
    neither a redirect nor a proxy has the host; after [addStatic], for
    a request with a non-empty path, it calls [http.ServeFile] on the
    name under the new directory if no other map has the host.  What
    net/http writes for these calls is not part of the statement. *)
Theorem register_then_dispatch writer request w :
  (∀ to : string,
     outcome ((addRedirect (http.Host request) to ;; Handler writer request) w)
     = inl (writer ++ [http.call_Redirect request
                         (to +:+ http.RequestURI request) 301]))
  ∧ (∀ (to : string) (u : URL),
       url_Parse to = inl u →
       redirect (globals w) !! http.Host request = None →
       outcome ((addProxy (http.Host request) to ;; Handler writer request) w)
       = inl (writer ++ [http.call_ReverseProxy
                           (httputil.NewSingleHostReverseProxy u) request]))
  ∧ (redirect (globals w) !! http.Host request = None →
     proxy (globals w) !! http.Host request = None →
     outcome ((addNotFound (http.Host request) ;; Handler writer request) w)
     = inl (writer ++ [http.call_Handler http.NotFoundHandler request]))
  ∧ (∀ (dir : string) (c : ascii) (rest : string),
       redirect (globals w) !! http.Host request = None →
       proxy (globals w) !! http.Host request = None →
       notFound (globals w) !! http.Host request = None →
       http.URL_Path request = String c rest →
       outcome ((addStatic (http.Host request) dir ;; Handler writer request) w)
       = inl (writer ++ [http.call_ServeFile request (dir +:+ rest)])).
Proof.
  split_and!.
  - intros to. erewrite bind_Ok by apply addRedirect_eq.
    erewrite Handler_redirect by (simpl; apply lookup_insert_eq).
    by rewrite Redirect_ServeHTTP_eq.
  - intros to u Hu Hr. erewrite bind_Ok by (by apply addProxy_parsed).
    erewrite Handler_proxy; [| done | simpl; apply lookup_insert_eq].
    by rewrite Proxy_ServeHTTP_eq.
  - intros Hr Hp. erewrite bind_Ok by apply addNotFound_eq.
    erewrite Handler_notFound;
      [| done | done | simpl; apply lookup_insert_eq].
    by rewrite NotFound_ServeHTTP_eq.
  - intros dir c rest Hr Hp Hn Hpath.
    erewrite bind_Ok by apply addStatic_eq.
    erewrite Handler_static;
      [| done | done | done | simpl; apply lookup_insert_eq].
    by rewrite (Static_ServeHTTP_String _ _ _ _ c rest).
Qed.

(** X2.  Registering a route for one host changes the answer to no
    request for another host, whichever factory function is called and
    however the call ends. *)
Theorem registration_leaves_other_hosts host writer request w :
  http.Host request ≠ host →
  outcome (Handler writer request (world_of (addNotFound host w)))
    = outcome (Handler writer request w)
  ∧ (∀ to, outcome (Handler writer request (world_of (addRedirect host to w)))
           = outcome (Handler writer request w))
  ∧ (∀ to, outcome (Handler writer request (world_of (addProxy host to w)))
           = outcome (Handler writer request w))
  ∧ (∀ dir, outcome (Handler writer request (world_of (addStatic host dir w)))
            = outcome (Handler writer request w)).
Proof.
  intros Hne. split_and!.
  - rewrite addNotFound_eq. apply Handler_reads_host; simpl; try done.
    by apply lookup_insert_ne.
  - intros to. rewrite addRedirect_eq.
    apply Handler_reads_host; simpl; try done. by apply lookup_insert_ne.
  - intros to. destruct (url_Parse to) as [u|err] eqn:Hu.
    + rewrite (addProxy_parsed _ _ u) by done.
      apply Handler_reads_host; simpl; try done. by apply lookup_insert_ne.
    + destruct (addProxy_fatal host to err w Hu) as [line ->].
      by apply Handler_reads_globals.
  - intros dir. rewrite addStatic_eq.
    apply Handler_reads_host; simpl; try done. by apply lookup_insert_ne.
Qed.

End routes.

(** ** Loading one configuration file *)

Section configuration.
Context `{Platform}.
Implicit Types (w : World Globals) (name host typ : string).

Lemma bind_Ok_inv {A B} (m : M Globals A) (k : A → M Globals B) w b w' :
  bind m k w = Ok b w' → ∃ a w1, m w = Ok a w1 ∧ k a w1 = Ok b w'.
Proof.
  unfold bind. destruct (m w) as [a w1| |]; [eauto | done | done].
Qed.

Lemma Println_inv (args : list string) w (u : unit) w1 :
  log.Println args w = Ok u w1 → globals w1 = globals w.
Proof. unfold log.Println, log.Output. by intros [= _ <-]. Qed.

Lemma checkErr_inv {A} (r : A + error) w (a : A) w' :
  checkErr r w = Ok a w' → r = inl a ∧ w' = w.
Proof.
  destruct r as [v|err]; simpl.
  - by intros [= -> ->].
  - destruct (Fatal_eq (A:=A) err w) as [line Hf].
    unfold checkErr. by rewrite Hf.
Qed.

Lemma checkErr_fatal {A B} (err : error) (k : A → M Globals B) w :
  ∃ w', bind (checkErr (inr err)) k w = Exit 1 w' ∧ globals w' = globals w.
Proof.
  destruct (Fatal_eq (A:=A) err w) as [line Hf].
  eexists. split; [apply bind_Exit, Hf | done].
Qed.

Lemma Println_bind {B} (args : list string) (k : unit → M Globals B) w :
  ∃ w1, bind (log.Println args) k w = k tt w1 ∧ globals w1 = globals w.
Proof. eexists. split; [by apply bind_Ok | done]. Qed.

(** X3.  A file that cannot be loaded, or has no [host], or no [type],
    ends the process with status 1 and leaves the maps as they were; so
    does a [Proxy] or [Redirect] file without [to], and a [Static] file
    without [dir]. *)
Theorem loadFile_missing name w :
  (∀ err, goconfig_LoadConfigFile (configDir +:+ "/" +:+ name) = inr err →
     ∃ w', loadFile name w = Exit 1 w' ∧ globals w' = globals w)
  ∧ (∀ cfg, goconfig_LoadConfigFile (configDir +:+ "/" +:+ name) = inl cfg →
       (∀ err, ConfigFile_GetValue cfg "DEFAULT" "host" = inr err →
          ∃ w', loadFile name w = Exit 1 w' ∧ globals w' = globals w)
       ∧ (∀ host, ConfigFile_GetValue cfg "DEFAULT" "host" = inl host →
            (∀ err, ConfigFile_GetValue cfg "DEFAULT" "type" = inr err →
               ∃ w', loadFile name w = Exit 1 w' ∧ globals w' = globals w)
            ∧ (∀ typ err,
                 ConfigFile_GetValue cfg "DEFAULT" "type" = inl typ →
                 typ = "Proxy" ∨ typ = "Redirect" →
                 ConfigFile_GetValue cfg "DEFAULT" "to" = inr err →
                 ∃ w', loadFile name w = Exit 1 w' ∧ globals w' = globals w)
            ∧ (∀ err,
                 ConfigFile_GetValue cfg "DEFAULT" "type" = inl "Static" →
                 ConfigFile_GetValue cfg "DEFAULT" "dir" = inr err →
                 ∃ w', loadFile name w = Exit 1 w' ∧ globals w' = globals w))).
Proof.
  unfold loadFile.
  destruct (Println_bind (B:=unit) ["Loading"; name]
              (fun _ => 
                 cfg <- checkErr (goconfig_LoadConfigFile
                                    (configDir +:+ "/" +:+ name)) ;;
                 host <- checkErr (ConfigFile_GetValue cfg "DEFAULT" "host") ;;
                 log.Println ["host="; host] ;;
                 typ <- checkErr (ConfigFile_GetValue cfg "DEFAULT" "type") ;;
                 log.Println ["type="; typ] ;;
                 when (String.eqb typ "NotFound") (addNotFound host) ;;
                 when (String.eqb typ "Proxy")
                   (to <- checkErr (ConfigFile_GetValue cfg "DEFAULT" "to") ;;
                    log.Println ["to="; to] ;;
                    addProxy host to) ;;
                 when (String.eqb typ "Static")
                   (dir <- checkErr (ConfigFile_GetValue cfg "DEFAULT" "dir") ;;
                    log.Println ["dir="; dir] ;;
                    addStatic host dir) ;;
                 when (String.eqb typ "Redirect")
                   (to <- checkErr (ConfigFile_GetValue cfg "DEFAULT" "to") ;;
                    log.Println ["to="; to] ;;
                    addRedirect host to)) w) as (w1 & -> & Hw1).
  rewrite <- Hw1. clear Hw1. split.
  { intros err ->. apply checkErr_fatal. }
  intros cfg ->. erewrite (bind_Ok (checkErr (inl cfg))) by reflexivity.
  split.
  { intros err ->. apply checkErr_fatal. }
  intros host ->. erewrite (bind_Ok (checkErr (inl host))) by reflexivity.
  match goal with |- context [bind (log.Println ?a) ?k w1] =>
    destruct (Println_bind a k w1) as (w2 & Hstep & Hw2)
  end.
  rewrite <- Hw2. clear Hw2. split_and!.
  - intros err Htyp. rewrite Hstep, Htyp. apply checkErr_fatal.
  - intros typ err Htyp Hcase Hto. rewrite Hstep, Htyp.
    erewrite (bind_Ok (checkErr (inl typ))) by reflexivity.
    match goal with |- context [bind (log.Println ?a) ?k w2] =>
      destruct (Println_bind a k w2) as (w3 & -> & Hw3)
    end.
    rewrite <- Hw3. clear Hw3.
    destruct Hcase as [-> | ->]; simpl String.eqb; unfold when;
      repeat (erewrite (bind_Ok (ret tt)) by reflexivity);
      rewrite Hto.
    + destruct (checkErr_fatal (A:=string) (B:=unit) err
                  (fun to => log.Println ["to="; to] ;;
                             addProxy host to) w3) as (w4 & Hf & Hw4).
      exists w4. split; [|done]. by apply bind_Exit.
    + apply checkErr_fatal.
  - intros err Htyp Hdir. rewrite Hstep, Htyp.
    erewrite (bind_Ok (checkErr (inl "Static"))) by reflexivity.
    match goal with |- context [bind (log.Println ?a) ?k w2] =>
      destruct (Println_bind a k w2) as (w3 & -> & Hw3)
    end.
    rewrite <- Hw3. clear Hw3.
    simpl String.eqb; unfold when;
      repeat (erewrite (bind_Ok (ret tt)) by reflexivity);
      rewrite Hdir.
    destruct (checkErr_fatal (A:=string) (B:=unit) err
                (fun dir => log.Println ["dir="; dir] ;;
                            addStatic host dir) w3) as (w4 & Hf & Hw4).
    exists w4. split; [|done]. by apply bind_Exit.
Qed.

(** The tail of [loadFile], once [host] and [type] are read. *)
Lemma loadFile_steps name cfg host typ w :
  goconfig_LoadConfigFile (configDir +:+ "/" +:+ name) = inl cfg →
  ConfigFile_GetValue cfg "DEFAULT" "host" = inl host →
  ConfigFile_GetValue cfg "DEFAULT" "type" = inl typ →
  ∃ w3, globals w3 = globals w ∧
    loadFile name w =
    (when (String.eqb typ "NotFound") (addNotFound host) ;;
     when (String.eqb typ "Proxy")
       (to <- checkErr (ConfigFile_GetValue cfg "DEFAULT" "to") ;;
        log.Println ["to="; to] ;;
        addProxy host to) ;;
     when (String.eqb typ "Static")
       (dir <- checkErr (ConfigFile_GetValue cfg "DEFAULT" "dir") ;;
        log.Println ["dir="; dir] ;;
        addStatic host dir) ;;
     when (String.eqb typ "Redirect")
       (to <- checkErr (ConfigFile_GetValue cfg "DEFAULT" "to") ;;
        log.Println ["to="; to] ;;
        addRedirect host to)) w3.
Proof.
  intros Hload Hhost Htyp. unfold loadFile.
  erewrite (bind_Ok (log.Println _)) by reflexivity.
  rewrite Hload. erewrite (bind_Ok (checkErr (inl cfg))) by reflexivity.
  rewrite Hhost. erewrite (bind_Ok (checkErr (inl host))) by reflexivity.
  erewrite (bind_Ok (log.Println _)) by reflexivity.
  rewrite Htyp. erewrite (bind_Ok (checkErr (inl typ))) by reflexivity.
  erewrite (bind_Ok (log.Println _)) by reflexivity.
  eexists. split; [|reflexivity]. done.
Qed.

Lemma typeName_cases typ :
  (∃ v, typ = typeName v) ∨ (∀ v, typ ≠ typeName v).
Proof.
  destruct (decide (typ = "NotFound")) as [->|?]; [left; by exists VNotFound|].
  destruct (decide (typ = "Proxy")) as [->|?];
    [left; by exists VReverseProxy|].
  destruct (decide (typ = "Static")) as [->|?]; [left; by exists VStaticSite|].
  destruct (decide (typ = "Redirect")) as [->|?]; [left; by exists VRedirect|].
  right. by intros [].
Qed.

(** X4.  A file whose [type] is none of [NotFound], [Proxy], [Static]
    and [Redirect] is skipped without a word: loading it returns
    normally and registers nothing, whatever else the file holds. *)
Theorem loadFile_unknown_type name cfg host typ w :
  goconfig_LoadConfigFile (configDir +:+ "/" +:+ name) = inl cfg →
  ConfigFile_GetValue cfg "DEFAULT" "host" = inl host →
  ConfigFile_GetValue cfg "DEFAULT" "type" = inl typ →
  (∀ v, typ ≠ typeName v) →
  ∃ w', loadFile name w = Ok tt w' ∧ globals w' = globals w.
Proof.
  intros Hload Hhost Htyp Hnone.
  destruct (loadFile_steps name cfg host typ w Hload Hhost Htyp)
    as (w3 & Hw3 & ->).
  rewrite (proj2 (String.eqb_neq typ "NotFound")) by apply (Hnone VNotFound).
  rewrite (proj2 (String.eqb_neq typ "Proxy")) by apply (Hnone VReverseProxy).
  rewrite (proj2 (String.eqb_neq typ "Static")) by apply (Hnone VStaticSite).
  rewrite (proj2 (String.eqb_neq typ "Redirect")) by apply (Hnone VRedirect).
  exists w3. done.
Qed.

(** Reading a key that is there, logging it, and going on. *)
Lemma read_key_then (f : string → M Globals unit) (key val : string) w :
  ∃ w1, globals w1 = globals w ∧
    (x <- checkErr (inl val) ;; log.Println [key; x] ;; f x) w = f val w1.
Proof. eexists. split; [|reflexivity]. done. Qed.

Lemma addProxy_reads_globals host (to : string) w1 w2 :
  globals w1 = globals w2 →
  is_Ok (addProxy host to w1) = is_Ok (addProxy host to w2)
  ∧ globals (world_of (addProxy host to w1))
    = globals (world_of (addProxy host to w2)).
Proof.
  intros Hg. destruct (url_Parse to) as [u|err] eqn:Hu.
  - rewrite !(addProxy_parsed _ _ u) by done. simpl. by rewrite Hg.
  - destruct (addProxy_fatal host to err w1 Hu) as [l1 ->].
    destruct (addProxy_fatal host to err w2 Hu) as [l2 ->]. done.
Qed.

(** X5.  A well-formed file registers its host as the factory function
    of its type does: the maps after [loadFile] are those after
    [addNotFound host], [addProxy host to], [addStatic host dir] or
    [addRedirect host to], and the process goes on unless the proxy URL
    does not parse. *)
Theorem loadFile_registers name cfg host w :
  goconfig_LoadConfigFile (configDir +:+ "/" +:+ name) = inl cfg →
  ConfigFile_GetValue cfg "DEFAULT" "host" = inl host →
  (ConfigFile_GetValue cfg "DEFAULT" "type" = inl "NotFound" →
     is_Ok (loadFile name w) = true
     ∧ globals (world_of (loadFile name w))
       = globals (world_of (addNotFound host w)))
  ∧ (∀ to, ConfigFile_GetValue cfg "DEFAULT" "type" = inl "Proxy" →
       ConfigFile_GetValue cfg "DEFAULT" "to" = inl to →
       is_Ok (loadFile name w) = is_Ok (addProxy host to w)
       ∧ globals (world_of (loadFile name w))
         = globals (world_of (addProxy host to w)))
  ∧ (∀ dir, ConfigFile_GetValue cfg "DEFAULT" "type" = inl "Static" →
       ConfigFile_GetValue cfg "DEFAULT" "dir" = inl dir →
       is_Ok (loadFile name w) = true
       ∧ globals (world_of (loadFile name w))
         = globals (world_of (addStatic host dir w)))
  ∧ (∀ to, ConfigFile_GetValue cfg "DEFAULT" "type" = inl "Redirect" →
       ConfigFile_GetValue cfg "DEFAULT" "to" = inl to →
       is_Ok (loadFile name w) = true
       ∧ globals (world_of (loadFile name w))
         = globals (world_of (addRedirect host to w))).
Proof.
  intros Hload Hhost. split_and!.
  - intros Htyp.
    destruct (loadFile_steps name cfg host _ w Hload Hhost Htyp)
      as (w3 & Hw3 & ->).
    simpl String.eqb. unfold when.
    erewrite (bind_Ok (addNotFound host)) by apply addNotFound_eq.
    rewrite addNotFound_eq. simpl. by rewrite Hw3.
  - intros to Htyp Hto.
    destruct (loadFile_steps name cfg host _ w Hload Hhost Htyp)
      as (w3 & Hw3 & ->).
    simpl String.eqb. unfold when.
    erewrite (bind_Ok (ret tt)) by reflexivity. rewrite Hto.
    destruct (read_key_then (addProxy host) "to=" to w3) as (w4 & Hw4 & Hb).
    destruct (addProxy_reads_globals host to w4 w) as [Hok Hgl];
      [congruence|].
    rewrite <- Hok, <- Hgl.
    pose proof (safe_addProxy host to w4) as Hsafe.
    destruct (addProxy host to w4) as [[] w5|code w5|msg w5];
      [| |done].
    + by rewrite !(bind_Ok _ _ _ _ _ Hb).
    + by rewrite !(bind_Exit _ _ _ _ _ Hb).
  - intros dir Htyp Hdir.
    destruct (loadFile_steps name cfg host _ w Hload Hhost Htyp)
      as (w3 & Hw3 & ->).
    simpl String.eqb. unfold when.
    do 2 (erewrite (bind_Ok (ret tt)) by reflexivity). rewrite Hdir.
    destruct (read_key_then (addStatic host) "dir=" dir w3)
      as (w4 & Hw4 & Hb).
    rewrite addStatic_eq in Hb. rewrite !(bind_Ok _ _ _ _ _ Hb), addStatic_eq.
    simpl. by rewrite Hw4, Hw3.
  - intros to Htyp Hto.
    destruct (loadFile_steps name cfg host _ w Hload Hhost Htyp)
      as (w3 & Hw3 & ->).
    simpl String.eqb. unfold when.
    do 3 (erewrite (bind_Ok (ret tt)) by reflexivity). rewrite Hto.
    destruct (read_key_then (addRedirect host) "to=" to w3)
      as (w4 & Hw4 & Hb).
    rewrite Hb, !addRedirect_eq. simpl. by rewrite Hw4, Hw3.
Qed.

End configuration.

(** ** The routing table that [main] builds *)

Section table.
Context `{Platform}.
Implicit Types (w : World Globals) (name host typ : string).

Lemma typeName_inj (v1 v2 : Variant) : typeName v1 = typeName v2 → v1 = v2.
Proof. by destruct v1, v2. Qed.

(** A file that loads without ending the process has a [host] and a
    [type]; it made one factory call, for that host and the variant of
    that type, or none when the type is unknown. *)
Lemma loadFile_Ok_inv name w w' :
  loadFile name w = Ok tt w' →
  ∃ cfg host typ,
    goconfig_LoadConfigFile (configDir +:+ "/" +:+ name) = inl cfg
    ∧ ConfigFile_GetValue cfg "DEFAULT" "host" = inl host
    ∧ ConfigFile_GetValue cfg "DEFAULT" "type" = inl typ
    ∧ (((∀ v, typ ≠ typeName v) ∧ globals w' = globals w)
       ∨ ∃ r w0, globals w0 = globals w ∧ register r w0 = Ok tt w'
                 ∧ hostOf r = host ∧ typeName (variantOf r) = typ).
Proof.
  intros Hl. pose proof Hl as Hl0. unfold loadFile in Hl.
  apply bind_Ok_inv in Hl as ([] & w1 & _ & Hl).
  apply bind_Ok_inv in Hl as (cfg & w2 & Hc & Hl).
  apply checkErr_inv in Hc as [Hload ->].
  apply bind_Ok_inv in Hl as (host & w2 & Hc & Hl).
  apply checkErr_inv in Hc as [Hhost ->].
  apply bind_Ok_inv in Hl as ([] & w2 & _ & Hl).
  apply bind_Ok_inv in Hl as (typ & w3 & Hc & _).
  apply checkErr_inv in Hc as [Htyp ->].
  destruct (loadFile_steps name cfg host typ w Hload Hhost Htyp)
    as (w3 & Hw3 & Heq).
  rewrite Heq in Hl0. clear Heq.
  exists cfg, host, typ. split_and!; [done..|].
  destruct (typeName_cases typ) as [[v ->] | Hnone].
  - right. destruct v; simpl String.eqb in Hl0; unfold when in Hl0.
    + do 3 (erewrite (bind_Ok (ret tt)) in Hl0 by reflexivity).
      apply bind_Ok_inv in Hl0 as (to & w4 & Hc & Hl0).
      apply checkErr_inv in Hc as [_ ->].
      apply bind_Ok_inv in Hl0 as ([] & w5 & Hp & Hl0).
      apply Println_inv in Hp.
      exists (RegRedirect host to), w5. split_and!; [congruence | done..].
    + erewrite (bind_Ok (ret tt)) in Hl0 by reflexivity.
      apply bind_Ok_inv in Hl0 as ([] & w6 & Hl0 & [= <-]).
      apply bind_Ok_inv in Hl0 as (to & w4 & Hc & Hl0).
      apply checkErr_inv in Hc as [_ ->].
      apply bind_Ok_inv in Hl0 as ([] & w5 & Hp & Hl0).
      apply Println_inv in Hp.
      exists (RegProxy host to), w5. split_and!; [congruence | done..].
    + apply bind_Ok_inv in Hl0 as ([] & w6 & Hl0 & [= <-]).
      exists (RegNotFound host), w3. split_and!; done.
    + do 2 (erewrite (bind_Ok (ret tt)) in Hl0 by reflexivity).
      apply bind_Ok_inv in Hl0 as ([] & w6 & Hl0 & [= <-]).
      apply bind_Ok_inv in Hl0 as (dir & w4 & Hc & Hl0).
      apply checkErr_inv in Hc as [_ ->].
      apply bind_Ok_inv in Hl0 as ([] & w5 & Hp & Hl0).
      apply Println_inv in Hp.
      exists (RegStatic host dir), w5. split_and!; [congruence | done..].
  - left. split; [done|].
    rewrite (proj2 (String.eqb_neq typ "NotFound")) in Hl0
      by apply (Hnone VNotFound).
    rewrite (proj2 (String.eqb_neq typ "Proxy")) in Hl0
      by apply (Hnone VReverseProxy).
    rewrite (proj2 (String.eqb_neq typ "Static")) in Hl0
      by apply (Hnone VStaticSite).
    rewrite (proj2 (String.eqb_neq typ "Redirect")) in Hl0
      by apply (Hnone VRedirect).
    injection Hl0 as <-. done.
Qed.

Lemma registered_globals w1 w2 host (v : Variant) :
  globals w1 = globals w2 →
  registered (globals w1) host v = registered (globals w2) host v.
Proof. by intros ->. Qed.

(** The file [name] declares [host] under the variant [v]. *)
Local Abbreviation declares name host v :=
  (∃ cfg, goconfig_LoadConfigFile (configDir +:+ "/" +:+ name) = inl cfg
          ∧ ConfigFile_GetValue cfg "DEFAULT" "host" = inl host
          ∧ ConfigFile_GetValue cfg "DEFAULT" "type" = inl (typeName v)).

Lemma loadFile_registered name w w' :
  loadFile name w = Ok tt w' →
  ∀ v h, registered (globals w') h v = true
         ↔ registered (globals w) h v = true ∨ declares name h v.
Proof.
  intros Hl v h.
  destruct (loadFile_Ok_inv name w w' Hl)
    as (cfg & host & typ & Hload & Hhost & Htyp & Hcase).
  destruct Hcase as [[Hnone Hg] | (r & w0 & Hw0 & Hr & Hhr & Hvr)].
  - rewrite Hg. split; [by left|]. intros [?|(cfg' & Hl' & Hh' & Ht')]; [done|].
    exfalso. apply (Hnone v). congruence.
  - rewrite (register_registered r w0 w' Hr v h), Hw0. split.
    + intros [?|[<- <-]]; [by left|]. right. exists cfg. by rewrite Hhr, Hvr.
    + intros [?|(cfg' & Hl' & Hh' & Ht')]; [by left|]. right.
      split; [apply typeName_inj|]; congruence.
Qed.

Lemma forEach_loadFile_registered (l : list string) w w' :
  forEach l loadFile w = Ok tt w' →
  ∀ v h, registered (globals w') h v = true
         ↔ registered (globals w) h v = true
           ∨ ∃ name, In name l ∧ declares name h v.
Proof.
  revert w. induction l as [|name l IH]; intros w Hl v h.
  - injection Hl as <-. split; [by left | by intros [?|(? & [] & _)]].
  - simpl in Hl. apply bind_Ok_inv in Hl as ([] & w1 & H1 & Hl).
    rewrite (IH w1 Hl v h), (loadFile_registered name w w1 H1 v h).
    simpl. split.
    + intros [[?|?]|(n & ? & ?)]; [by left | right; exists name
                                  | right; exists n]; tauto.
    + intros [?|(n & [<-|?] & ?)]; [tauto | tauto |].
      right. exists n. tauto.
Qed.

(** X6.  When the set-up returns, the maps hold the configured hosts
    and no other: a host is in the map of a variant exactly if some file
    of the directory loads, names that host, and has the type of that
    variant.  What the maps held before [main] plays no part. *)
Theorem setup_routes w w' :
  setup w = Ok tt w' →
  ∀ v h, registered (globals w') h v = true
         ↔ ∃ name, In name (ioutil_ReadDir configDir)
             ∧ ∃ cfg,
                 goconfig_LoadConfigFile (configDir +:+ "/" +:+ name) = inl cfg
                 ∧ ConfigFile_GetValue cfg "DEFAULT" "host" = inl h
                 ∧ ConfigFile_GetValue cfg "DEFAULT" "type"
                   = inl (typeName v).
Proof.
  intros Hs v h. unfold setup in Hs.
  apply bind_Ok_inv in Hs as ([] & w1 & [= <-] & Hs).
  apply bind_Ok_inv in Hs as ([] & w2 & Hf & Hp).
  apply Println_inv in Hp.
  rewrite (registered_globals w' w2 h v Hp),
          (forEach_loadFile_registered _ _ _ Hf v h).
  split; [|by right]. intros [Hreg|?]; [|done].
  destruct v; simpl in Hreg; unfold registered in Hreg; simpl in Hreg;
    by rewrite lookup_empty in Hreg.
Qed.

End table.

(** ** Serving *)

Section server.
Context `{Platform}.
Implicit Types (writer : http.ResponseWriter) (request : http.Request).
Implicit Types (w : World Globals).







(** The server never ends the process and never lets a panic out; it
    leaves the maps alone and records one result per request. *)
Lemma serve_total (accepted : list (http.Request * string)) w :
  ∃ rs w', serve accepted w = Ok rs w'
           ∧ globals w' = globals w ∧ length rs = length accepted.
Proof.
  revert w. induction accepted as [|[request report] rest IH]; intros w.
  { by exists [], w. }
  destruct (Handler_effect [] request w) as (Hg & Hexit & _).
  simpl.
  destruct (Handler [] request w) as [writer w1|code w1|msg w1];
    simpl in Hg.
  - destruct (IH w1) as (rs & w' & Hs & Hw' & Hlen).
    exists (Some writer :: rs), w'. split_and!; [|congruence|simpl; congruence].
    by erewrite bind_Ok by apply Hs.
  - by destruct (Hexit code w1).
  - destruct (Output_globals report w1) as [line Hline].
    erewrite (bind_Ok (log.Output _)) by apply Hline.
    destruct (IH (mkWorld (stderr w1 ++ [line]) (globals w1)))
      as (rs & w' & Hs & Hw' & Hlen).
    exists (None :: rs), w'.
    split_and!; [|simpl in Hw'; congruence|simpl; congruence].
    by erewrite bind_Ok by apply Hs.
Qed.

Lemma safe_forEach {A} (l : list A) (body : A → M Globals unit) :
  (∀ x w, ok_or_fatal (body x w)) → ∀ w, ok_or_fatal (forEach l body w).
Proof.
  intros Hb. induction l as [|x l IH]; intros w; [done|].
  simpl. apply safe_bind; [apply Hb | intros _; apply IH].
Qed.

Lemma safe_setup w : ok_or_fatal (setup w).
Proof.
  unfold setup. apply safe_bind; [done|]. intros _.
  apply safe_bind; [apply safe_forEach, safe_loadFile | intros _].
  apply safe_Println.
Qed.

(** X9.  [main] never ends by a panic, and it ends the process with
    status 1 only: in its set-up, with nothing served, or when
    [http.ListenAndServe] returns its error, and then with the maps as
    the set-up built them.  It returns only if [ListenAndServe] returns
    no error. *)
Theorem main_outcome (accepted : list (http.Request * string))
    (err : option error) w :
  (∀ msg w', main accepted err w ≠ Panic msg w')
  ∧ (∀ code w', main accepted err w = Exit code w' → code = 1%Z)
  ∧ (∀ w1, setup w = Exit 1 w1 → main accepted err w = Exit 1 w1)
  ∧ (∀ w1 e, setup w = Ok tt w1 → err = Some e →
       ∃ w', main accepted err w = Exit 1 w' ∧ globals w' = globals w1)
  ∧ (∀ w', main accepted err w = Ok tt w' → err = None).
Proof.
  assert (∀ w1, setup w = Ok tt w1 →
            ∃ w2, globals w2 = globals w1 ∧
              main accepted err w
              = match err with
                | Some e => log.Fatal e w2
                | None => Ok tt w2
                end) as Hserved.
  { intros w1 Hs.
    destruct (serve_total accepted w1) as (rs & w2 & Hserve & Hw2 & _).
    exists w2. split; [done|]. unfold main.
    erewrite bind_Ok by apply Hs. erewrite bind_Ok by apply Hserve.
    by destruct err. }
  pose proof (safe_setup w) as Hsafe.
  destruct (setup w) as [[] w1|code w1|msg w1] eqn:Hs; [| |done].
  - destruct (Hserved w1 eq_refl) as (w2 & Hw2 & Hm). rewrite Hm.
    destruct err as [e|].
    + destruct (Fatal_eq (A:=unit) e w2) as [line ->].
      split_and!; [done | by intros ?? [= <- _] | done | | done].
      intros w3 e' [= <-] _. eexists. split; [reflexivity | done].
    + split_and!; done.
  - simpl in Hsafe. subst code.
    assert (main accepted err w = Exit 1 w1) as ->
      by (unfold main; by apply bind_Exit).
    split_and!; [done | by intros ?? [= <- _] | by intros ? [= <-] | done | done].
Qed.

(** X10.  With an empty listing of the configuration directory (also
    when the directory cannot be read: [main] drops that error) the
    set-up returns with four empty maps, and [Handler] answers whatever
    request it is handed with the generic not-found handler. *)
Theorem setup_without_configuration w :
  ioutil_ReadDir configDir = [] →
  ∃ w1, setup w = Ok tt w1
        ∧ globals w1 = mkGlobals ∅ ∅ ∅ ∅
        ∧ ∀ writer request w2, globals w2 = globals w1 →
            outcome (Handler writer request w2)
            = inl (writer ++ [http.call_Handler http.NotFoundHandler request]).
Proof.
  intros Hdir.
  assert (∃ w1, setup w = Ok tt w1 ∧ globals w1 = mkGlobals ∅ ∅ ∅ ∅)
    as (w1 & Hs & Hg).
  { unfold setup. rewrite Hdir. eexists. split; [reflexivity | done]. }
  exists w1. split_and!; [done..|].
  intros writer request w2 Hw2.
  rewrite Handler_miss, serveGeneric_eq;
    [done | rewrite Hw2, Hg; simpl; apply lookup_empty ..].
Qed.

End server.

(** ** The further properties on concrete inputs *)

(** X2: registering the static site leaves a stranger's answer alone. *)
Lemma registration_leaves_other_hosts_example :
  outcome (Handler (H:=example_platform) [] stray_request
             (world_of (addStatic "www.example.com" "/srv/www/" start)))
  = outcome (Handler (H:=example_platform) [] stray_request start).
Proof.
  destruct (registration_leaves_other_hosts (H:=example_platform)
              "www.example.com" [] stray_request start)
    as (_ & _ & _ & Hstatic); [discriminate|].
  apply Hstatic.
Defined.

(** X3: a file that names a host and no type ends the process. *)
Lemma loadFile_missing_example :
  ∃ w', loadFile (H:=dir_platform untyped_dir) "a.conf" start = Exit 1 w'
        ∧ globals w' = globals start.
Proof.
  destruct (loadFile_missing (H:=dir_platform untyped_dir) "a.conf" start)
    as [_ Hcfg].
  destruct (Hcfg [("host", "a.example.com")]) as [_ Hhost];
    [vm_compute; reflexivity|].
  destruct (Hhost "a.example.com") as [Htype _]; [vm_compute; reflexivity|].
  apply (Htype "error: key not found"). vm_compute. reflexivity.
Defined.

(** X4: a file of type [Mirror] is skipped. *)
Lemma loadFile_unknown_type_example :
  ∃ w', loadFile (H:=dir_platform odd_dir) "mirror.conf" start = Ok tt w'
        ∧ globals w' = globals start.
Proof.
  apply (loadFile_unknown_type (H:=dir_platform odd_dir) "mirror.conf"
           [("host", "mirror.example.com"); ("type", "Mirror");
            ("to", "https://example.com")]
           "mirror.example.com" "Mirror" start);
    [vm_compute; reflexivity .. |].
  intros []; discriminate.
Defined.

(** X5: the redirect file registers what [addRedirect] registers. *)
Lemma loadFile_registers_example :
  is_Ok (loadFile (H:=example_platform) "old.conf" start) = true
  ∧ globals (world_of (loadFile (H:=example_platform) "old.conf" start))
    = globals (world_of (addRedirect "old.example.com" "https://example.com"
                           start)).
Proof.
  destruct (loadFile_registers (H:=example_platform) "old.conf"
              [("host", "old.example.com"); ("type", "Redirect");
               ("to", "https://example.com")]
              "old.example.com" start) as (_ & _ & _ & Hredirect);
    [vm_compute; reflexivity ..|].
  apply Hredirect; vm_compute; reflexivity.
Defined.

(** X6: the redirect the example table holds comes from a file. *)
Lemma setup_routes_example :
  ∃ name, In name (ioutil_ReadDir (Platform:=example_platform) configDir)
    ∧ ∃ cfg,
        goconfig_LoadConfigFile (Platform:=example_platform)
          (configDir +:+ "/" +:+ name) = inl cfg
        ∧ ConfigFile_GetValue cfg "DEFAULT" "host" = inl "old.example.com"
        ∧ ConfigFile_GetValue cfg "DEFAULT" "type" = inl "Redirect".
Proof.
  apply (proj1 (setup_routes (H:=example_platform) start
                  (world_of (setup (H:=example_platform) start))
                  ltac:(vm_compute; reflexivity)
                  VRedirect "old.example.com")).
  vm_compute. reflexivity.
Defined.


(** X10: no configuration, and a request is told "not found". *)
Lemma setup_without_configuration_example :
  ∃ w1, setup (H:=dir_platform []) start = Ok tt w1
        ∧ outcome (Handler (H:=dir_platform []) [] stray_request w1)
          = inl [http.call_Handler http.NotFoundHandler stray_request].
Proof.
  destruct (setup_without_configuration (H:=dir_platform []) start)
    as (w1 & Hs & _ & Hserve); [reflexivity|].
  exists w1. split; [done|]. by apply Hserve.
Defined.

(** * The responses, as far as the calls decide them *)

Lemma hexEscapeNonASCII_String (c : ascii) (rest : string) :
  hexEscapeNonASCII (String c rest)
  = if 128 <=? nat_of_ascii c
    then String "%"
           (String (hexdigit (nat_of_ascii c / 16))
              (String (hexdigit (nat_of_ascii c mod 16))
                 (hexEscapeNonASCII rest)))
    else String c (hexEscapeNonASCII rest).
Proof. reflexivity. Qed.

Lemma ascii_only_String (c : ascii) (rest : string) :
  ascii_only (String c rest)
  = (nat_of_ascii c <? 128) && ascii_only rest.
Proof. reflexivity. Qed.

Lemma hexEscapeNonASCII_ascii (s : string) :
  ascii_only s = true → hexEscapeNonASCII s = s.
Proof.
  induction s as [|c s IH]; [done|].
  rewrite ascii_only_String, hexEscapeNonASCII_String.
  intros [Hc Hs]%andb_prop. apply Nat.ltb_lt in Hc.
  destruct (128 <=? nat_of_ascii c) eqn:Hge.
  - apply Nat.leb_le in Hge. lia.
  - by rewrite IH.
Qed.

Lemma hexEscapeNonASCII_fixed (s : string) :
  hexEscapeNonASCII s = s → ascii_only s = true.
Proof.
  induction s as [|c s IH]; [done|].
  rewrite ascii_only_String, hexEscapeNonASCII_String.
  destruct (128 <=? nat_of_ascii c) eqn:Hge.
  - intros [= Hc _]. rewrite <- Hc in Hge. discriminate.
  - intros [= Hs]. apply Nat.leb_gt in Hge.
    rewrite (IH Hs), andb_true_r. by apply Nat.ltb_lt.
Qed.

Section responses.
Context `{Platform}.
Implicit Types (writer : http.ResponseWriter) (request : http.Request).
Implicit Types (w : World Globals).

(** C2 (as the code has it).  A request whose host has a Redirect
    entry is answered by one call of [http.Redirect], with status 301
    and, as target, the entry's [To] followed literally by the request
    URI: the handler transforms nothing.  When that target has a scheme,
    the Location header net/http writes is the target with its bytes
    from 0x80 up %-escaped; it is the literal concatenation exactly
    when the target holds ASCII bytes only. *)
Theorem Handler_redirect_response writer request w (thisRedirect : Redirect.t) :
  redirect (globals w) !! http.Host request = Some thisRedirect →
  Handler writer request w =
    Ok (writer ++ [http.call_Redirect request
                     (Redirect.To thisRedirect +:+ http.RequestURI request)
                     301])
       (mkWorld (stderr w ++ ["Redirecting(" +:+ http.Host request +:+ ") "
                              +:+ Redirect.To thisRedirect +:+ LF])
                (globals w))
  ∧ (has_scheme (Redirect.To thisRedirect +:+ http.RequestURI request) = true →
     Redirect_Location (Redirect.To thisRedirect +:+ http.RequestURI request)
     = Some (hexEscapeNonASCII
               (Redirect.To thisRedirect +:+ http.RequestURI request))
     ∧ (location_is_literal thisRedirect request
        ↔ ascii_only (Redirect.To thisRedirect +:+ http.RequestURI request)
          = true)).
Proof.
  intros Hr. split.
  - rewrite (Handler_redirect _ _ _ _ Hr). apply Redirect_ServeHTTP_eq.
  - intros Hs. unfold location_is_literal, Redirect_Location. rewrite Hs.
    split; [done|]. split.
    + intros [= Heq]. by apply hexEscapeNonASCII_fixed.
    + intros Ha. by rewrite hexEscapeNonASCII_ascii.
Qed.

(** C5 (as the code has it).  A request dispatched to a StaticSite
    entry, with a path that starts with the separator, is answered by
    one call of [http.ServeFile] whose file name is the entry's [Dir]
    followed by the path without that separator.  That file is the one
    served only if [ServeFile] does not redirect the request: a path
    ending in [/index.html] is redirected to [./] and gets no file. *)
Theorem Handler_static_call writer request w (thisStatic : Static.t)
    (rest : string) :
  redirect (globals w) !! http.Host request = None →
  proxy (globals w) !! http.Host request = None →
  notFound (globals w) !! http.Host request = None →
  static (globals w) !! http.Host request = Some thisStatic →
  http.URL_Path request = "/" +:+ rest →
  Handler writer request w =
    Ok (writer ++ [http.call_ServeFile request
                     (Static.Dir thisStatic +:+ rest)])
       (mkWorld (stderr w ++ ["Serving(" +:+ http.Host request +:+ ") "
                              +:+ Static.Dir thisStatic +:+ rest +:+ LF])
                (globals w))
  ∧ (strings_HasSuffix ("/" +:+ rest) "/index.html" = false →
     file_is_served request (Static.Dir thisStatic +:+ rest)
       (http.call_ServeFile request (Static.Dir thisStatic +:+ rest)))
  ∧ (strings_HasSuffix ("/" +:+ rest) "/index.html" = true →
     ∀ name call, ¬ file_is_served request name call).
Proof.
  intros Hr Hp Hn Hs Hpath. split_and!.
  - rewrite (Handler_static _ _ _ _ Hr Hp Hn Hs).
    by apply (Static_ServeHTTP_String _ _ _ _ "/"%char rest).
  - intros Hidx. split; [done|].
    unfold ServeFile_redirects_index. by rewrite Hpath.
  - intros Hidx name call [_ Hno].
    unfold ServeFile_redirects_index in Hno. rewrite Hpath in Hno. congruence.
Qed.

End responses.

(** C2 on the example of the specification: the Location is the
    concatenation. *)
Lemma Handler_redirect_response_example :
  outcome (Handler (H:=example_platform) [] redirect_request
             (world_of (addRedirect "old.example.com" "https://example.com"
                          start)))
  = inl [http.call_Redirect redirect_request
           "https://example.com/a/b?x=1" 301]
  ∧ Redirect_Location "https://example.com/a/b?x=1"
    = Some "https://example.com/a/b?x=1".
Proof.
  destruct (Handler_redirect_response (H:=example_platform) []
              redirect_request
              (world_of (addRedirect "old.example.com" "https://example.com"
                           start))
              (Redirect.mk "https://example.com" None))
    as [Hcall Hloc]; [vm_compute; reflexivity|].
  split.
  - rewrite Hcall. reflexivity.
  - destruct Hloc as [_ Hlit]; [reflexivity|].
    apply Hlit. reflexivity.
Defined.

(** C2 as the specification has it fails on a request URI with a byte
    above 0x7f: the handler passes the concatenation, and the Location
    is not it. *)
Lemma redirect_location_escaped :
  outcome (Handler (H:=example_platform) [] cafe_request
             (world_of (addRedirect "old.example.com" "https://example.com"
                          start)))
  = inl [http.call_Redirect cafe_request
           ("https://example.com" +:+ http.RequestURI cafe_request) 301]
  ∧ Redirect_Location ("https://example.com" +:+ http.RequestURI cafe_request)
    = Some "https://example.com/caf%c3%a9"
  ∧ ¬ location_is_literal (Redirect.mk "https://example.com" None)
        cafe_request.
Proof.
  split_and!; [vm_compute; reflexivity | vm_compute; reflexivity |].
  unfold location_is_literal. vm_compute. discriminate.
Qed.

(** C5 on a page that is not an index. *)
Lemma Handler_static_call_example :
  outcome (Handler (H:=example_platform) [] page_request
             (world_of (addStatic "www.example.com" "/srv/www/" start)))
  = inl [http.call_ServeFile page_request "/srv/www/page.html"]
  ∧ file_is_served page_request "/srv/www/page.html"
      (http.call_ServeFile (H:=example_platform) page_request
         "/srv/www/page.html").
Proof.
  destruct (Handler_static_call (H:=example_platform) [] page_request
              (world_of (addStatic "www.example.com" "/srv/www/" start))
              (Static.mk "/srv/www/" (Some (http.FileServer "/srv/www/")))
              "page.html")
    as (Hcall & Hfile & _); [vm_compute; reflexivity ..|].
  split.
  - rewrite Hcall. reflexivity.
  - apply Hfile. vm_compute. reflexivity.
Defined.

(** C5 as the specification has it fails on its own example: for the
    path [/index.html] the handler calls [ServeFile] on
    [/srv/www/index.html], and [ServeFile] redirects to [./]. *)
Lemma static_index_not_served :
  outcome (Handler (H:=example_platform) [] static_request
             (world_of (addStatic "www.example.com" "/srv/www/" start)))
  = inl [http.call_ServeFile static_request "/srv/www/index.html"]
  ∧ ServeFile_redirects_index static_request = true
  ∧ ¬ file_is_served static_request "/srv/www/index.html"
        (http.call_ServeFile (H:=example_platform) static_request
           "/srv/www/index.html").
Proof.
  split_and!; [vm_compute; reflexivity | vm_compute; reflexivity |].
  intros [_ Hno]. vm_compute in Hno. discriminate.
Qed.
